(** * OpenFisca MCP: error taxonomy, upstream error normalizer, transport
    client, situation validator and tool dispatcher.

    A shallow embedding of [openfisca_mcp/errors.py], [openfisca_mcp/client.py]
    and [openfisca_mcp/server.py].

    Python values that reach the program are decoded JSON documents.  They are
    modelled by [json]; a mapping is an association list in insertion order,
    as a Python [dict] iterates.  Two restrictions are made on the data:
    - numbers are integers (a JSON number with a fraction or an exponent
      decodes to a Python float, which is left out);
    - a Python [str] is a [string] read as a sequence of code points below
      256, one [ascii] per character.
    Python exceptions are explicit: fallible code returns a [result]. *)

From Stdlib Require Import String Ascii List ZArith Bool Lia DecimalString.
Import ListNotations.
Open Scope string_scope.
Set Warnings "-register-all".

(** ** Decoded JSON values *)

Inductive json : Type :=
| JNull
| JBool (b : bool)
| JInt (n : Z)
| JStr (s : string)
| JList (l : list json)
| JDict (d : list (string * json)).

(** A Python [dict] with [str] keys. *)
Definition dict := list (string * json).

Fixpoint lookup (k : string) (d : dict) : option json :=
  match d with
  | [] => None
  | (k', v) :: rest => if String.eqb k k' then Some v else lookup k rest
  end.

Definition keys (d : dict) : list string := map fst d.
Definition values (d : dict) : list json := map snd d.

(** [d[k] = v]: an existing key keeps its position, a new key goes last. *)
Fixpoint dict_set (k : string) (v : json) (d : dict) : dict :=
  match d with
  | [] => [(k, v)]
  | (k', v') :: rest =>
      if String.eqb k k' then (k, v) :: rest else (k', v') :: dict_set k v rest
  end.

(** ** Python string operations *)

(** [needle in hay] on two strings. *)
Fixpoint str_contains (needle hay : string) : bool :=
  prefix needle hay ||
  match hay with
  | EmptyString => false
  | String _ rest => str_contains needle rest
  end.

Definition lower_char (c : ascii) : ascii :=
  (let n := nat_of_ascii c in
  if ((65 <=? n) && (n <=? 90)) ||
     ((192 <=? n) && (n <=? 222) && negb (n =? 215))
  then ascii_of_nat (n + 32) else c)%nat.

(** [s.lower()]. *)
Fixpoint str_lower (s : string) : string :=
  match s with
  | EmptyString => EmptyString
  | String c rest => String (lower_char c) (str_lower rest)
  end.

Fixpoint str_chars (s : string) : list string :=
  match s with
  | EmptyString => []
  | String c rest => String c EmptyString :: str_chars rest
  end.

Fixpoint join (sep : string) (l : list string) : string :=
  match l with
  | [] => ""
  | [x] => x
  | x :: rest => x ++ sep ++ join sep rest
  end.

Definition hex_digit (n : nat) : ascii :=
  (if n <? 10 then ascii_of_nat (48 + n) else ascii_of_nat (87 + n))%nat.

Definition repr_char (quote : ascii) (c : ascii) : string :=
  let n := nat_of_ascii c in
  if Ascii.eqb c quote || Ascii.eqb c "\"%char then String "\" (String c "")
  else if (n =? 9)%nat then "\t"
  else if (n =? 10)%nat then "\n"
  else if (n =? 13)%nat then "\r"
  else if ((n <? 32) || (n =? 127) || ((128 <=? n) && (n <=? 160)) || (n =? 173))%nat
       then String "\" (String "x" (String (hex_digit (n / 16))
                                     (String (hex_digit (n mod 16)) "")))
  else String c "".

Fixpoint repr_body (quote : ascii) (s : string) : string :=
  match s with
  | EmptyString => EmptyString
  | String c rest => repr_char quote c ++ repr_body quote rest
  end.

Definition dquote : ascii := ascii_of_nat 34.
Definition squote : ascii := "'"%char.

(** [repr(s)] of a string: single quotes, unless the string holds a single
    quote and no double quote. *)
Definition repr_str (s : string) : string :=
  let q := if str_contains "'" s && negb (str_contains (String dquote "") s)
           then dquote else squote in
  String q (repr_body q s ++ String q "").

Definition str_of_Z (n : Z) : string := NilZero.string_of_int (Z.to_int n).

(** [repr(v)] and [str(v)]. *)
Fixpoint py_repr (v : json) : string :=
  match v with
  | JNull => "None"
  | JBool true => "True"
  | JBool false => "False"
  | JInt n => str_of_Z n
  | JStr s => repr_str s
  | JList l => "[" ++ join ", " (map py_repr l) ++ "]"
  | JDict d =>
      "{" ++ join ", " (map (fun kv => repr_str (fst kv) ++ ": " ++ py_repr (snd kv)) d)
          ++ "}"
  end.

Definition py_str (v : json) : string :=
  match v with
  | JStr s => s
  | _ => py_repr v
  end.

(** ** Python dynamic operations on JSON values *)

(** Truth value: [None], [False], [0], [""], [[]] and [{}] are false. *)
Definition truthy (v : json) : bool :=
  match v with
  | JNull => false
  | JBool b => b
  | JInt n => negb (n =? 0)%Z
  | JStr s => negb (String.eqb s "")
  | JList l => match l with [] => false | _ => true end
  | JDict d => match d with [] => false | _ => true end
  end.

Definition type_name (v : json) : string :=
  match v with
  | JNull => "NoneType"
  | JBool _ => "bool"
  | JInt _ => "int"
  | JStr _ => "str"
  | JList _ => "list"
  | JDict _ => "dict"
  end.

Definition Z_of_bool (b : bool) : Z := if b then 1%Z else 0%Z.

(** [a == b]: numbers and booleans compare by value, lists element by
    element, mappings key by key whatever the order. *)
Fixpoint py_eq (a b : json) : bool :=
  match a, b with
  | JNull, JNull => true
  | JBool x, JBool y => Bool.eqb x y
  | JBool x, JInt n => (Z_of_bool x =? n)%Z
  | JInt m, JBool y => (m =? Z_of_bool y)%Z
  | JInt m, JInt n => (m =? n)%Z
  | JStr s, JStr t => String.eqb s t
  | JList l, JList l' =>
      (fix go (xs ys : list json) : bool :=
         match xs, ys with
         | [], [] => true
         | x :: xs', y :: ys' => py_eq x y && go xs' ys'
         | _, _ => false
         end) l l'
  | JDict d, JDict d' =>
      (length d =? length d')%nat &&
      forallb (fun kv => match lookup (fst kv) d' with
                         | Some v' => py_eq (snd kv) v'
                         | None => false
                         end) d
  | _, _ => false
  end.

Definition is_dict (v : json) : bool :=
  match v with JDict _ => true | _ => false end.

Definition hashable (v : json) : bool :=
  match v with JList _ | JDict _ => false | _ => true end.

(** ** errors.py: the error taxonomy *)

(** [MCPError]: the fields its constructor stores. *)
Record MCPError : Type := mkMCPError {
  error_type : string;
  message : string;
  code : Z;
  details : dict;
  suggestions : list string
}.

(** [details or {}] and [suggestions or []]: an argument left out ([None])
    or empty is stored as the empty value. *)
Definition or_empty {A : Type} (o : option (list A)) : list A :=
  match o with
  | Some (x :: l) => x :: l
  | _ => []
  end.

(** [MCPError.__init__]. *)
Definition MCPError_init (error_type message : string) (code : Z)
    (details : option dict) (suggestions : option (list string)) : MCPError :=
  mkMCPError error_type message code (or_empty details) (or_empty suggestions).

(** [MCPError.to_dict]. *)
Definition to_dict (e : MCPError) : json :=
  JDict [("error",
          JDict [("type", JStr (error_type e));
                 ("code", JInt (code e));
                 ("message", JStr (message e));
                 ("details", JDict (details e));
                 ("suggestions", JList (map JStr (suggestions e)))])].

Definition ValidationError (message : string) (details : option dict)
    (suggestions : option (list string)) : MCPError :=
  MCPError_init "validation_error" message 400 details suggestions.

Definition NotFoundError (message : string) (details : option dict)
    (suggestions : option (list string)) : MCPError :=
  MCPError_init "not_found_error" message 404 details suggestions.

Definition DependencyError (message : string) (details : option dict)
    (suggestions : option (list string)) : MCPError :=
  MCPError_init "dependency_error" message 500 details suggestions.

(** [suggestions or ["Check that the OpenFisca server is running"]]. *)
Definition ConnectionError (message : string) (details : option dict)
    (suggestions : option (list string)) : MCPError :=
  MCPError_init "connection_error" message 503 details
    (Some (match suggestions with
           | Some (x :: l) => x :: l
           | _ => ["Check that the OpenFisca server is running"]
           end)).

(** ** Exceptions *)

(** A raised exception: a taxonomy error, or any other Python exception,
    kept as its class name and [str(e)] (the messages of the built-in
    exceptions are worded as CPython 3.11 words them; [str] of a [KeyError]
    is the [repr] of the key). *)
Inductive exn : Type :=
| MCP (e : MCPError)
| Py (cls : string) (msg : string).

Inductive result (A : Type) : Type :=
| Return (a : A)
| Raise (e : exn).
Arguments Return {A} a.
Arguments Raise {A} e.

Definition rbind {A B : Type} (m : result A) (k : A -> result B) : result B :=
  match m with
  | Return a => k a
  | Raise e => Raise e
  end.

Declare Scope result_scope.
Delimit Scope result_scope with result.
Notation "x <- m ;; k" := (rbind m (fun x => k))
  (at level 61, m at next level, right associativity) : result_scope.
Notation "' p <- m ;; k" := (rbind m (fun x => let 'p := x in k))
  (at level 61, p pattern, m at next level, right associativity) : result_scope.

(** A [for] loop that appends to a list: the bodies run in order and the
    first exception ends the loop. *)
Fixpoint for_each {A B : Type} (body : A -> result (list B)) (l : list A)
  : result (list B) :=
  match l with
  | [] => Return []
  | x :: rest =>
      match body x with
      | Raise e => Raise e
      | Return ys =>
          match for_each body rest with
          | Raise e => Raise e
          | Return zs => Return (ys ++ zs)%list
          end
      end
  end.

Definition AttributeError (v : json) (attr : string) : exn :=
  Py "AttributeError"
     ("'" ++ type_name v ++ "' object has no attribute '" ++ attr ++ "'").

Definition unhashable (v : json) : exn :=
  Py "TypeError" ("unhashable type: '" ++ type_name v ++ "'").

(** [v[k]] with a string [k]. *)
Definition py_getitem (v : json) (k : string) : result json :=
  match v with
  | JDict d =>
      match lookup k d with
      | Some x => Return x
      | None => Raise (Py "KeyError" (repr_str k))
      end
  | JList _ => Raise (Py "TypeError" "list indices must be integers or slices, not str")
  | JStr _ => Raise (Py "TypeError" "string indices must be integers, not 'str'")
  | _ => Raise (Py "TypeError" ("'" ++ type_name v ++ "' object is not subscriptable"))
  end.

(** [v.get(k, default)]; only a string can be a key of a decoded mapping. *)
Definition py_get (v : json) (k : json) (default : json) : result json :=
  match v with
  | JDict d =>
      if hashable k
      then Return (match k with
                   | JStr k' => match lookup k' d with Some x => x | None => default end
                   | _ => default
                   end)
      else Raise (unhashable k)
  | _ => Raise (AttributeError v "get")
  end.

(** [v.items()], [v.values()], [v.keys()]. *)
Definition py_items (v : json) : result dict :=
  match v with
  | JDict d => Return d
  | _ => Raise (AttributeError v "items")
  end.

Definition py_values (v : json) : result (list json) :=
  match v with
  | JDict d => Return (values d)
  | _ => Raise (AttributeError v "values")
  end.

Definition py_keys (v : json) : result (list string) :=
  match v with
  | JDict d => Return (keys d)
  | _ => Raise (AttributeError v "keys")
  end.

(** [for x in v]: the keys of a mapping, the items of a list, the characters
    of a string. *)
Definition py_iter (v : json) : result (list json) :=
  match v with
  | JDict d => Return (map JStr (keys d))
  | JList l => Return l
  | JStr s => Return (map JStr (str_chars s))
  | _ => Raise (Py "TypeError" ("'" ++ type_name v ++ "' object is not iterable"))
  end.

(** [x in container]. *)
Definition py_contains (x container : json) : result bool :=
  match container with
  | JDict d =>
      if hashable x
      then Return (match x with
                   | JStr k => match lookup k d with Some _ => true | None => false end
                   | _ => false
                   end)
      else Raise (unhashable x)
  | JList l => Return (existsb (py_eq x) l)
  | JStr hay =>
      match x with
      | JStr needle => Return (str_contains needle hay)
      | _ => Raise (Py "TypeError"
                       ("'in <string>' requires string as left operand, not "
                        ++ type_name x))
      end
  | _ => Raise (Py "TypeError"
                   ("argument of type '" ++ type_name container ++ "' is not iterable"))
  end.

(** [x in s] for a [set] [s], kept as the list of its members. *)
Definition set_contains (x : json) (s : list json) : result bool :=
  if hashable x then Return (existsb (py_eq x) s) else Raise (unhashable x).

(** [v.lower()]. *)
Definition py_lower (v : json) : result string :=
  match v with
  | JStr s => Return (str_lower s)
  | _ => Raise (AttributeError v "lower")
  end.

(** ** errors.py: the upstream error normalizer *)

Definition is_field_key (k : string) : bool :=
  str_contains "/" k || negb (String.eqb k "error").

(** [format_api_error].  The result is the error the function returns; the
    function itself raises when [response_data] is not a mapping. *)
Definition format_api_error (response_data : json) (status_code : Z)
  : result MCPError :=
  (has_error <- py_contains (JStr "error") response_data ;;
   simple <- (if has_error
              then (v <- py_getitem response_data "error" ;;
                    Return (match v with JStr m => Some m | _ => None end))
              else Return None) ;;
   match simple with
   | Some message =>
       if (status_code =? 404)%Z
       then Return (NotFoundError message None None)
       else Return (ValidationError message None None)
   | None =>
       items <- py_items response_data ;;
       let field_errors := filter (fun kv => is_field_key (fst kv)) items in
       match field_errors with
       | (first_path, first_message) :: _ =>
           Return (ValidationError
                     ("Validation error at " ++ first_path ++ ": "
                      ++ py_str first_message)
                     (Some [("field_errors", JDict field_errors)])
                     (Some ["Check the field path and value format"]))
       | [] =>
           Return (ValidationError "API returned an error"
                     (Some [("raw_response", response_data)]) None)
       end
   end)%result.

(** ** client.py: the transport client *)

(** What [httpx] hands back for one request. *)
Module httpx.

Inductive request : Type :=
| GET (path : string)
| POST (path : string) (body : json).

(** [response.json()] returns the decoded body, or raises when the body
    is not JSON. *)
Record Response : Type := mkResponse {
  status_code : Z;
  text : string;
  json : result json
}.

(** A request is answered, fails with [httpx.ConnectError], or fails with
    another transport exception (a timeout, a protocol error). *)
Inductive outcome : Type :=
| Answered (response : Response)
| ConnectError (msg : string)
| OtherError (cls msg : string).

End httpx.

(** The Rule Engine Service as the client sees it: the outcome of a request,
    given the requests issued before it (oldest first). *)
Definition engine : Type := list httpx.request -> httpx.request -> httpx.outcome.

Record OpenFiscaClient : Type := mkClient {
  base_url : string;
  transport : engine
}.

(** Code that issues requests: it extends the trace of requests issued so
    far and returns or raises. *)
Definition io (A : Type) : Type :=
  list httpx.request -> list httpx.request * result A.

Definition ret {A : Type} (a : A) : io A := fun tr => (tr, Return a).
Definition raise {A : Type} (e : exn) : io A := fun tr => (tr, Raise e).
Definition lift {A : Type} (r : result A) : io A := fun tr => (tr, r).

Definition bind {A B : Type} (m : io A) (k : A -> io B) : io B :=
  fun tr =>
    match m tr with
    | (tr', Return a) => k a tr'
    | (tr', Raise e) => (tr', Raise e)
    end.

(** [try: m  except Exception: ...]: the outcome of [m] as a value. *)
Definition try_except {A : Type} (m : io A) : io (result A) :=
  fun tr => let (tr', r) := m tr in (tr', Return r).

Declare Scope io_scope.
Delimit Scope io_scope with io.
Notation "x <- m ;; k" := (bind m (fun x => k))
  (at level 61, m at next level, right associativity) : io_scope.

(** [OpenFiscaClient._handle_response]. *)
Definition _handle_response (response : httpx.Response) : result json :=
  if (httpx.status_code response >=? 400)%Z
  then
    let data := match httpx.json response with
                | Return data => data
                | Raise _ => JDict [("error", JStr (httpx.text response))]
                end in
    (e <- format_api_error data (httpx.status_code response) ;;
     Raise (MCP e))%result
  else httpx.json response.

Section Client.

Variable self : OpenFiscaClient.

Definition send (req : httpx.request) : io httpx.outcome :=
  fun tr => ((tr ++ [req])%list, Return (transport self tr req)).

(** The body the seven operations share: issue the request, handle the
    response, turn [httpx.ConnectError] into a [ConnectionError]. *)
Definition perform (req : httpx.request) : io json :=
  (o <- send req ;;
   match o with
   | httpx.Answered response => lift (_handle_response response)
   | httpx.ConnectError e =>
       raise (MCP (ConnectionError
                     ("Cannot connect to OpenFisca API at " ++ base_url self)
                     (Some [("url", JStr (base_url self)); ("error", JStr e)])
                     None))
   | httpx.OtherError cls msg => raise (Py cls msg)
   end)%io.

Definition get_entities : io json := perform (httpx.GET "/entities").
Definition get_variables : io json := perform (httpx.GET "/variables").
Definition get_variable (variable_id : json) : io json :=
  perform (httpx.GET ("/variable/" ++ py_str variable_id)).
Definition get_parameters : io json := perform (httpx.GET "/parameters").
Definition get_parameter (parameter_id : json) : io json :=
  perform (httpx.GET ("/parameter/" ++ py_str parameter_id)).
Definition calculate (situation : json) : io json :=
  perform (httpx.POST "/calculate" situation).
Definition trace (situation : json) : io json :=
  perform (httpx.POST "/trace" situation).

End Client.

(** ** server.py: rendering *)

Definition newline : string := String (ascii_of_nat 10) "".

(** [json.dumps] escapes a quote, a backslash and every character outside
    space..tilde. *)
Definition json_escape_char (c : ascii) : string :=
  let n := nat_of_ascii c in
  if Ascii.eqb c dquote then String "\" (String dquote "")
  else if Ascii.eqb c "\"%char then "\\"
  else if (n =? 8)%nat then "\b"
  else if (n =? 12)%nat then "\f"
  else if (n =? 10)%nat then "\n"
  else if (n =? 13)%nat then "\r"
  else if (n =? 9)%nat then "\t"
  else if ((n <? 32) || (126 <? n))%nat
       then "\u00" ++ String (hex_digit (n / 16)) (String (hex_digit (n mod 16)) "")
  else String c "".

Fixpoint json_escape (s : string) : string :=
  match s with
  | EmptyString => EmptyString
  | String c rest => json_escape_char c ++ json_escape rest
  end.

Definition json_quote (s : string) : string :=
  String dquote (json_escape s ++ String dquote "").

Fixpoint indent (level : nat) : string :=
  match level with
  | O => ""
  | S n => "  " ++ indent n
  end.

(** [json.dumps(v, indent=2)], at nesting depth [level]. *)
Fixpoint json_dumps_at (level : nat) (v : json) : string :=
  match v with
  | JNull => "null"
  | JBool true => "true"
  | JBool false => "false"
  | JInt n => str_of_Z n
  | JStr s => json_quote s
  | JList l =>
      match l with
      | [] => "[]"
      | _ => "[" ++ newline ++ indent (S level)
             ++ join ("," ++ newline ++ indent (S level))
                     (map (json_dumps_at (S level)) l)
             ++ newline ++ indent level ++ "]"
      end
  | JDict d =>
      match d with
      | [] => "{}"
      | _ => "{" ++ newline ++ indent (S level)
             ++ join ("," ++ newline ++ indent (S level))
                     (map (fun kv => json_quote (fst kv) ++ ": "
                                     ++ json_dumps_at (S level) (snd kv)) d)
             ++ newline ++ indent level ++ "}"
      end
  end.

Definition json_dumps (v : json) : string := json_dumps_at 0 v.

Record TextContent : Type := mkTextContent {
  type : string;
  text : string
}.

(** [format_result]. *)
Definition format_result (data : json) : list TextContent :=
  if is_dict data
  then [mkTextContent "text" (json_dumps data)]
  else [mkTextContent "text" (py_str data)].

(** [format_error]. *)
Definition format_error (error : MCPError) : list TextContent :=
  [mkTextContent "text" (json_dumps (to_dict error))].

(** ** server.py: the tool handlers *)

Definition situation_required : exn :=
  MCP (ValidationError "Situation is required" None
         (Some ["Provide a situation object with persons and households"])).

(** *** The checks of [handle_validate_situation] *)

(** [{e["plural"] for e in entities.values()}], then
    [.update(entities.keys())]. *)
Definition valid_entity_plurals (entities : json) : result (list json) :=
  (es <- py_values entities ;;
   plurals <- for_each (fun e =>
                          p <- py_getitem e "plural" ;;
                          if hashable p then Return [p] else Raise (unhashable p)) es ;;
   ks <- py_keys entities ;;
   Return (plurals ++ map JStr ks)%list)%result.

Definition unknown_entity_type (key : json) : string :=
  "Unknown entity type: '" ++ py_str key ++ "'".

(** The loop over the top-level keys. *)
Definition check_top_level_keys (situation : json) (valid : list json)
  : result (list string) :=
  (ks <- py_iter situation ;;
   for_each (fun key =>
               known <- set_contains key valid ;;
               Return (if known then [] else [unknown_entity_type key])) ks)%result.

Definition no_person : string := "At least one person must be defined".

Definition unknown_person_variable (var_name : json) (person_id : string) : string :=
  "Unknown variable '" ++ py_str var_name ++ "' for person '" ++ person_id ++ "'".

(** The loop over the persons and their variables. *)
Definition check_person_variables (persons all_vars : json) : result (list string) :=
  (ps <- py_items persons ;;
   for_each (fun p : string * json =>
               let (person_id, person_data) := p in
               vs <- py_iter person_data ;;
               for_each (fun var_name =>
                           known <- py_contains var_name all_vars ;;
                           Return (if known then []
                                   else [unknown_person_variable var_name person_id]))
                        vs) ps)%result.

(** [r.get("plural", r["key"])]: the attribute [get] is looked up first, then
    the default [r["key"]] is evaluated, then [get] is called. *)
Definition role_plural (r : json) : result json :=
  match r with
  | JDict _ => (k <- py_getitem r "key" ;; py_get r (JStr "plural") k)%result
  | _ => Raise (AttributeError r "get")
  end.

(** The set [role_plurals]: computed when the first role descriptor (or [{}]
    when there is none) is a mapping, empty otherwise. *)
Definition role_plurals_of (roles : json) : result (list json) :=
  (rs <- py_values roles ;;
   if is_dict (hd (JDict []) rs)
   then for_each (fun r =>
                    p <- role_plural r ;;
                    if hashable p then Return [p] else Raise (unhashable p)) rs
   else Return [])%result.

Definition dangling_person (person_id entity_plural : json)
    (instance_id key : string) : string :=
  "Person '" ++ py_str person_id ++ "' in " ++ py_str entity_plural ++ "/"
  ++ instance_id ++ "/" ++ key ++ " is not defined in persons".

Definition unknown_group_variable (key : string) (entity_plural : json)
    (instance_id : string) : string :=
  "Unknown variable '" ++ key ++ "' for " ++ py_str entity_plural ++ " '"
  ++ instance_id ++ "'".

(** The body of the loop over one instance's entries. *)
Definition check_instance_entry (persons all_vars entity_plural : json)
    (instance_id : string) (role_keys : list string) (role_plurals : list json)
    (entry : string * json) : result (list string) :=
  let (key, value) := entry in
  if existsb (String.eqb key) role_keys || existsb (py_eq (JStr key)) role_plurals
  then match value with
       | JList ids =>
           for_each (fun person_id =>
                       known <- py_contains person_id persons ;;
                       Return (if known then []
                               else [dangling_person person_id entity_plural
                                       instance_id key])) ids
       | _ => Return []
       end%result
  else (known <- py_contains (JStr key) all_vars ;;
        Return (if known then []
                else [unknown_group_variable key entity_plural instance_id]))%result.

(** The body of the loop over one group entity's instances. *)
Definition check_instance (persons all_vars entity_info entity_plural : json)
    (instance : string * json) : result (list string) :=
  let (instance_id, instance_data) := instance in
  (roles <- py_getitem entity_info "roles" ;;
   role_keys <- py_keys roles ;;
   role_plurals <- role_plurals_of roles ;;
   entries <- py_items instance_data ;;
   for_each (check_instance_entry persons all_vars entity_plural instance_id
               role_keys role_plurals) entries)%result.

(** The body of the loop over the entities. *)
Definition check_entity (situation persons all_vars : json)
    (entity : string * json) : result (list string) :=
  let (entity_key, entity_info) := entity in
  (has_roles <- py_contains (JStr "roles") entity_info ;;
   if negb has_roles then Return []
   else
     entity_plural <- py_getitem entity_info "plural" ;;
     group_instances <- py_get situation entity_plural (JDict []) ;;
     instances <- py_items group_instances ;;
     for_each (check_instance persons all_vars entity_info entity_plural)
              instances)%result.

Definition check_group_entities (entities situation persons all_vars : json)
  : result (list string) :=
  (es <- py_items entities ;;
   for_each (check_entity situation persons all_vars) es)%result.

(** The rendered verdict. *)
Definition verdict (errors warnings : list string) : json :=
  match errors with
  | _ :: _ =>
      JDict [("valid", JBool false);
             ("errors", JList (map JStr errors));
             ("warnings", JList (map JStr warnings))]
  | [] =>
      JDict [("valid", JBool true);
             ("message", JStr "Situation is valid");
             ("warnings", JList (map JStr warnings))]
  end.

Section Server.

(** The module-level [client]. *)
Variable client : OpenFiscaClient.

Definition handle_list_entities : io (list TextContent) :=
  (data <- get_entities client ;;
   ret (format_result data))%io.

(** The filtering loop of [handle_list_variables]: a variable whose detail
    cannot be fetched or read is skipped. *)
Fixpoint filter_by_entity (entity : json) (items : dict) (filtered : dict)
  : io dict :=
  match items with
  | [] => ret filtered
  | (var_name, var_info) :: rest =>
      (r <- try_except (details <- get_variable client (JStr var_name) ;;
                        e <- lift (py_get details (JStr "entity") JNull) ;;
                        ret (py_eq e entity)) ;;
       match r with
       | Return true => filter_by_entity entity rest (dict_set var_name var_info filtered)
       | _ => filter_by_entity entity rest filtered
       end)%io
  end.

Definition handle_list_variables (entity : json) : io (list TextContent) :=
  (data <- get_variables client ;;
   data <- (if truthy entity
            then (items <- lift (py_items data) ;;
                  filtered <- filter_by_entity entity items [] ;;
                  ret (JDict filtered))
            else ret data) ;;
   ret (format_result data))%io.

Definition handle_describe_variable (variable_name : json) : io (list TextContent) :=
  (data <- get_variable client variable_name ;;
   ret (format_result data))%io.

Definition handle_list_parameters : io (list TextContent) :=
  (data <- get_parameters client ;;
   ret (format_result data))%io.

Definition handle_get_parameter (parameter_id : json) : io (list TextContent) :=
  (data <- get_parameter client parameter_id ;;
   ret (format_result data))%io.

(** The matching loop of [handle_search_variables]. *)
Fixpoint search_loop (query_lower : string) (entity : json) (items : dict)
    (matches : dict) : io dict :=
  match items with
  | [] => ret matches
  | (var_name, var_info) :: rest =>
      (let name_match := str_contains query_lower (str_lower var_name) in
       description <- lift (py_get var_info (JStr "description") (JStr "")) ;;
       description_lower <- lift (py_lower description) ;;
       let desc_match := str_contains query_lower description_lower in
       if name_match || desc_match
       then
         if truthy entity
         then
           r <- try_except (details <- get_variable client (JStr var_name) ;;
                            e <- lift (py_get details (JStr "entity") JNull) ;;
                            ret (negb (py_eq e entity))) ;;
           match r with
           | Return false =>
               search_loop query_lower entity rest (dict_set var_name var_info matches)
           | _ => search_loop query_lower entity rest matches
           end
         else search_loop query_lower entity rest (dict_set var_name var_info matches)
       else search_loop query_lower entity rest matches)%io
  end.

Definition handle_search_variables (query entity : json) : io (list TextContent) :=
  (all_vars <- get_variables client ;;
   query_lower <- lift (py_lower query) ;;
   items <- lift (py_items all_vars) ;;
   matches <- search_loop query_lower entity items [] ;;
   match matches with
   | [] =>
       ret (format_result
              (JDict [("message",
                       JStr ("No variables found matching '" ++ py_str query ++ "'"));
                      ("suggestions",
                       JList [JStr "Try a different search term";
                              JStr "Use list_variables to see all available variables"])]))
   | _ => ret (format_result (JDict matches))
   end)%io.

Definition handle_calculate (situation : json) : io (list TextContent) :=
  if negb (truthy situation) then raise situation_required
  else (data <- calculate client situation ;;
        ret (format_result data))%io.

Definition handle_trace_calculation (situation : json) : io (list TextContent) :=
  if negb (truthy situation) then raise situation_required
  else (data <- trace client situation ;;
        ret (format_result data))%io.

(** The body of [handle_validate_situation], up to the mapping it hands to
    [format_result]. *)
Definition validation_report (situation : json) : io json :=
  if negb (truthy situation) then raise situation_required
  else
    (entities <- get_entities client ;;
     valid <- lift (valid_entity_plurals entities) ;;
     key_errors <- lift (check_top_level_keys situation valid) ;;
     persons <- lift (py_get situation (JStr "persons") (JDict [])) ;;
     let person_errors := if truthy persons then [] else [no_person] in
     all_vars <- get_variables client ;;
     variable_errors <- lift (check_person_variables persons all_vars) ;;
     group_errors <- lift (check_group_entities entities situation persons all_vars) ;;
     let errors := (key_errors ++ person_errors ++ variable_errors ++ group_errors)%list in
     ret (verdict errors []))%io.

Definition handle_validate_situation (situation : json) : io (list TextContent) :=
  (report <- validation_report situation ;;
   ret (format_result report))%io.

(** *** The tool dispatcher *)

Definition argument (arguments : dict) (k : string) : io json :=
  lift (py_getitem (JDict arguments) k).

Definition argument_get (arguments : dict) (k : string) : json :=
  match lookup k arguments with
  | Some v => v
  | None => JNull
  end.

(** The [try] block of [call_tool]. *)
Definition dispatch (name : string) (arguments : dict) : io (list TextContent) :=
  (if String.eqb name "list_entities" then handle_list_entities
   else if String.eqb name "list_variables"
        then handle_list_variables (argument_get arguments "entity")
   else if String.eqb name "describe_variable"
        then v <- argument arguments "variable_name" ;; handle_describe_variable v
   else if String.eqb name "list_parameters" then handle_list_parameters
   else if String.eqb name "get_parameter"
        then v <- argument arguments "parameter_id" ;; handle_get_parameter v
   else if String.eqb name "search_variables"
        then q <- argument arguments "query" ;;
             handle_search_variables q (argument_get arguments "entity")
   else if String.eqb name "calculate"
        then s <- argument arguments "situation" ;; handle_calculate s
   else if String.eqb name "trace_calculation"
        then s <- argument arguments "situation" ;; handle_trace_calculation s
   else if String.eqb name "validate_situation"
        then s <- argument arguments "situation" ;; handle_validate_situation s
   else raise (MCP (ValidationError ("Unknown tool: " ++ name) None None)))%io.

Definition internal_error (msg : string) : MCPError :=
  MCPError_init "internal_error" msg 500 None None.

(** [call_tool]: the [try] block and its two [except] clauses. *)
Definition call_tool (name : string) (arguments : dict) : io (list TextContent) :=
  fun tr =>
    match dispatch name arguments tr with
    | (tr', Return rendered) => (tr', Return rendered)
    | (tr', Raise (MCP e)) => (tr', Return (format_error e))
    | (tr', Raise (Py _ msg)) => (tr', Return (format_error (internal_error msg)))
    end.

End Server.

(** * The vocabulary of the properties *)

(** ** Reading an error back *)

Definition as_str (v : json) : option string :=
  match v with
  | JStr s => Some s
  | _ => None
  end.

Fixpoint as_str_list (l : list json) : option (list string) :=
  match l with
  | [] => Some []
  | v :: rest =>
      match as_str v, as_str_list rest with
      | Some s, Some ss => Some (s :: ss)
      | _, _ => None
      end
  end.

(** The reader the round-trip property speaks of (the program has none):
    it reads [type], [code], [message], [details] and [suggestions] back from
    the nested shape [to_dict] produces. *)
Definition from_dict (v : json) : option MCPError :=
  match v with
  | JDict d =>
      match lookup "error" d with
      | Some (JDict e) =>
          match lookup "type" e, lookup "code" e, lookup "message" e,
                lookup "details" e, lookup "suggestions" e with
          | Some (JStr t), Some (JInt c), Some (JStr m),
            Some (JDict ds), Some (JList ss) =>
              match as_str_list ss with
              | Some sl => Some (mkMCPError t m c ds sl)
              | None => None
              end
          | _, _, _, _, _ => None
          end
      | _ => None
      end
  | _ => None
  end.

(** ** The operations of the client *)

(** The seven operations of the client, with their arguments. *)
Inductive operation : Type :=
| op_get_entities
| op_get_variables
| op_get_variable (variable_id : json)
| op_get_parameters
| op_get_parameter (parameter_id : json)
| op_calculate (situation : json)
| op_trace (situation : json).

Definition run (self : OpenFiscaClient) (op : operation) : io json :=
  match op with
  | op_get_entities => get_entities self
  | op_get_variables => get_variables self
  | op_get_variable variable_id => get_variable self variable_id
  | op_get_parameters => get_parameters self
  | op_get_parameter parameter_id => get_parameter self parameter_id
  | op_calculate situation => calculate self situation
  | op_trace situation => trace self situation
  end.

(** The request an operation issues. *)
Definition request_of (op : operation) : httpx.request :=
  match op with
  | op_get_entities => httpx.GET "/entities"
  | op_get_variables => httpx.GET "/variables"
  | op_get_variable variable_id => httpx.GET ("/variable/" ++ py_str variable_id)
  | op_get_parameters => httpx.GET "/parameters"
  | op_get_parameter parameter_id => httpx.GET ("/parameter/" ++ py_str parameter_id)
  | op_calculate situation => httpx.POST "/calculate" situation
  | op_trace situation => httpx.POST "/trace" situation
  end.

(** An engine nobody listens at. *)
Definition unreachable : engine :=
  fun _ _ => httpx.ConnectError "[Errno 111] Connection refused".

(** ** The dispatcher's outcomes *)

(** The names [list_tools] registers. *)
Definition list_tools : list string :=
  ["list_entities"; "list_variables"; "describe_variable"; "list_parameters";
   "get_parameter"; "search_variables"; "calculate"; "trace_calculation";
   "validate_situation"].

(** A computation that, when it returns, returns a success rendering. *)
Definition renders (m : io (list TextContent)) : Prop :=
  forall tr tr' r, m tr = (tr', Return r) -> exists data, r = format_result data.

(** ** Well-shaped schemas and situations *)

(** A role descriptor the validator can read: a mapping with a [key], whose
    plural (or, without one, whose key) is not a list or a mapping. *)
Definition role_ok (r : json) : bool :=
  match r with
  | JDict d =>
      match lookup "key" d with
      | Some k => hashable (match lookup "plural" d with Some p => p | None => k end)
      | None => false
      end
  | _ => false
  end.

(** The roles of a group entity: a mapping; when its first descriptor is a
    mapping, every descriptor is readable. *)
Definition roles_ok (roles : json) : bool :=
  match roles with
  | JDict rs =>
      if is_dict (hd (JDict []) (values rs)) then forallb role_ok (values rs) else true
  | _ => false
  end.

(** An entity definition: a mapping with a string [plural]. *)
Definition entity_ok (entity_info : json) : bool :=
  match entity_info with
  | JDict d =>
      match lookup "plural" d with
      | Some (JStr _) => true
      | _ => false
      end
  | _ => false
  end.

Definition entities_ok (entities : json) : bool :=
  match entities with
  | JDict es => forallb entity_ok (values es)
  | _ => false
  end.

(** A section of the situation: a mapping from instance ids to bodies. *)
Definition instances_ok (body_ok : json -> bool) (section : json) : bool :=
  match section with
  | JDict instances => forallb body_ok (values instances)
  | _ => false
  end.

(** The body of a group instance: a mapping whose list-valued entries hold
    no list and no mapping. *)
Definition group_body_ok (body : json) : bool :=
  match body with
  | JDict entries =>
      forallb (fun v => match v with
                        | JList ids => forallb hashable ids
                        | _ => true
                        end) (values entries)
  | _ => false
  end.

(** The section of a group entity, when the situation has one: a mapping
    from instance ids to well-shaped bodies; if it holds an instance, the
    roles of the entity are well-shaped. *)
Definition group_section_ok (s : dict) (entity_info : json) : bool :=
  match entity_info with
  | JDict d =>
      match lookup "roles" d, lookup "plural" d with
      | Some roles, Some (JStr p) =>
          match lookup p s with
          | Some (JDict []) => true
          | Some section => roles_ok roles && instances_ok group_body_ok section
          | None => true
          end
      | _, _ => true
      end
  | _ => true
  end.

(** A situation the validator can walk: a mapping whose ["persons"] section
    (when present) maps ids to mappings, and whose section for each group
    entity (when present) maps ids to well-shaped bodies. *)
Definition situation_ok (entities situation : json) : bool :=
  match situation, entities with
  | JDict s, JDict es =>
      match lookup "persons" s with
      | Some persons => instances_ok is_dict persons
      | None => true
      end
      && forallb (group_section_ok s) (values es)
  | _, _ => false
  end.

Definition well_shaped (entities all_vars situation : json) : bool :=
  entities_ok entities && is_dict all_vars && situation_ok entities situation.

(** ** Views of a schema and of a situation *)

Definition known (d : dict) (k : string) : bool :=
  match lookup k d with Some _ => true | None => false end.

(** [situation.get("persons", {})] on a mapping. *)
Definition persons_of (s : dict) : json :=
  match lookup "persons" s with
  | Some persons => persons
  | None => JDict []
  end.

Definition plural_of (entity_info : json) : option json :=
  match entity_info with
  | JDict d => lookup "plural" d
  | _ => None
  end.

(** A key is accepted when it is the key of an entity or the plural form of
    an entity. *)
Definition accepts (es : dict) (k : string) : Prop :=
  In k (keys es) \/
  exists entity_info, In entity_info (values es) /\ plural_of entity_info = Some (JStr k).

Definition has_plural (k : string) (entity_info : json) : bool :=
  match plural_of entity_info with
  | Some (JStr p) => String.eqb k p
  | _ => false
  end.

Definition accepted (es : dict) (k : string) : bool :=
  existsb (has_plural k) (values es) || existsb (String.eqb k) (keys es).

Definition mentions_entity_type (m : string) : bool :=
  prefix "Unknown entity type: '" m.




(** [key] names a role of the group entity: it is a role key, or (when the
    first descriptor is a mapping) the plural the validator reads from a
    descriptor. *)
Definition names_role (rs : dict) (key : string) : Prop :=
  In key (keys rs) \/
  (is_dict (hd (JDict []) (values rs)) = true /\
   exists r, In r (values rs) /\ role_plural r = Return (JStr key)).

(** [person_id in persons], for an id that can be hashed. *)
Definition defined_person (s : dict) (person_id : json) : bool :=
  match person_id, persons_of s with
  | JStr k, JDict ps => known ps k
  | _, _ => false
  end.

(** ** Sample data *)

Definition sample_entities : dict :=
  [("person", JDict [("plural", JStr "persons")]);
   ("household",
    JDict [("plural", JStr "households");
           ("roles",
            JDict [("adult", JDict [("key", JStr "adult");
                                    ("plural", JStr "adults");
                                    ("max", JInt 2)]);
                   ("child", JDict [("key", JStr "child");
                                    ("plural", JStr "children")])])])].

(** The entities as the spec's data model has them: a role descriptor holds
    [plural] and [max], and no [key]. *)
Definition plain_entities : dict :=
  [("person", JDict [("plural", JStr "persons")]);
   ("household",
    JDict [("plural", JStr "households");
           ("roles",
            JDict [("adult", JDict [("plural", JStr "adults"); ("max", JInt 2)]);
                   ("child", JDict [("plural", JStr "children")])])])].

(** A schema whose individual entity is not called [persons]. *)
Definition french_entities : dict :=
  [("individu", JDict [("plural", JStr "individus")]);
   ("menage",
    JDict [("plural", JStr "menages");
           ("roles",
            JDict [("personne_de_reference",
                    JDict [("key", JStr "personne_de_reference");
                           ("plural", JStr "personnes_de_reference")])])])].

Definition sample_variables : json :=
  JDict [("salary", JDict [("description", JStr "Salary")]);
         ("income_tax", JDict [("description", JStr "Income tax")])].

Definition answer (body : json) : httpx.outcome :=
  httpx.Answered (httpx.mkResponse 200 "" (Return body)).

(** An engine that serves a schema and nothing else. *)
Definition serving (entities : dict) (variables : json) : engine :=
  fun _ req =>
    match req with
    | httpx.GET "/entities" => answer (JDict entities)
    | httpx.GET "/variables" => answer variables
    | _ => httpx.ConnectError "[Errno 111] Connection refused"
    end.

Definition sample_client : OpenFiscaClient :=
  mkClient "http://localhost:5000" (serving sample_entities sample_variables).

Definition plain_client : OpenFiscaClient :=
  mkClient "http://localhost:5000" (serving plain_entities sample_variables).

Definition french_client : OpenFiscaClient :=
  mkClient "http://localhost:5000" (serving french_entities sample_variables).

Definition fetched : list httpx.request :=
  [httpx.GET "/entities"; httpx.GET "/variables"].

Definition situation_with_unknown_key : dict :=
  [("companies", JDict []);
   ("persons", JDict [("alice", JDict [("salary", JDict [("2024-01", JInt 3000)])])]);
   ("household", JDict [])].

Definition valid_situation : dict :=
  [("persons", JDict [("alice", JDict [("salary", JDict [("2024-01", JInt 3000)])])]);
   ("households", JDict [("h1", JDict [("adults", JList [JStr "alice"])])])].

Definition situation_without_persons : dict :=
  [("persons", JDict []);
   ("households", JDict [("h1", JDict [("adults", JList [JStr "alice"])])])].

Definition situation_with_dangling_reference : dict :=
  [("persons", JDict [("alice", JDict [])]);
   ("households", JDict [("h1", JDict [("adults", JList [JStr "bob"])])])].

(** ** Further vocabulary *)

(** The ["error"] entry of a body is a string. *)
Definition has_error_string (body : dict) : bool :=
  match lookup "error" body with
  | Some (JStr _) => true
  | _ => false
  end.

(** The tools that read a required argument, with its name. *)
Definition required_argument : list (string * string) :=
  [("describe_variable", "variable_name");
   ("get_parameter", "parameter_id");
   ("search_variables", "query");
   ("calculate", "situation");
   ("trace_calculation", "situation");
   ("validate_situation", "situation")].

(** The connection error an operation raises for a given cause. *)
Definition connection_error (self : OpenFiscaClient) (cause : string) : MCPError :=
  mkMCPError "connection_error"
    ("Cannot connect to OpenFisca API at " ++ base_url self) 503
    [("url", JStr (base_url self)); ("error", JStr cause)]
    ["Check that the OpenFisca server is running"].

(** The error the normalizer builds from [{"error": X}]. *)
Definition simple_error (status_code : Z) (X : string) : MCPError :=
  if (status_code =? 404)%Z
  then mkMCPError "not_found_error" X 404 [] []
  else mkMCPError "validation_error" X 400 [] [].

(** The two handlers that post a situation, with their endpoints. *)
Definition posting_handlers (client : OpenFiscaClient)
  : list ((json -> io (list TextContent)) * string) :=
  [(handle_calculate client, "/calculate");
   (handle_trace_calculation client, "/trace")].

(** An engine that knows no variable called [nope]. *)
Definition unknown_variable_engine : engine :=
  fun _ req =>
    match req with
    | httpx.GET "/variable/nope" =>
        httpx.Answered
          (httpx.mkResponse 404 "" (Return (JDict [("error", JStr "nope was not found")])))
    | _ => httpx.ConnectError "[Errno 111] Connection refused"
    end.

(** An engine whose [/calculate] answers with the situation it was sent. *)
Definition echo_engine : engine :=
  fun _ req =>
    match req with
    | httpx.POST "/calculate" body => answer body
    | _ => httpx.ConnectError "[Errno 111] Connection refused"
    end.

(** What [call_tool] makes of the outcome of its [try] block. *)
Definition rendering (out : list httpx.request * result (list TextContent))
  : list httpx.request * result (list TextContent) :=
  match out with
  | (tr', Return rendered) => (tr', Return rendered)
  | (tr', Raise (MCP e)) => (tr', Return (format_error e))
  | (tr', Raise (Py _ msg)) => (tr', Return (format_error (internal_error msg)))
  end.

(** The request for the detail of a variable. *)
Definition variable_request (var_name : string) : httpx.request :=
  httpx.GET ("/variable/" ++ var_name).

(** The engine has, at some point, answered the detail request of the
    variable with a mapping whose [entity] equals the filter. *)
Definition entity_confirmed (client : OpenFiscaClient) (entity : json)
    (var_name : string) : Prop :=
  exists h h' details e,
    get_variable client (JStr var_name) h = (h', Return details) /\
    py_get details (JStr "entity") JNull = Return e /\
    py_eq e entity = true.

(** A variable summary the search can read: a mapping whose [description],
    when it has one, is a string. *)
Definition summary_ok (var_info : json) : bool :=
  match var_info with
  | JDict d =>
      match lookup "description" d with
      | Some (JStr _) | None => true
      | Some _ => false
      end
  | _ => false
  end.

Definition description_of (var_info : json) : string :=
  match var_info with
  | JDict d =>
      match lookup "description" d with
      | Some (JStr s) => s
      | _ => ""
      end
  | _ => ""
  end.

(** The lower-cased query occurs in the lower-cased name or description. *)
Definition matches_query (query_lower : string) (kv : string * json) : bool :=
  str_contains query_lower (str_lower (fst kv))
  || str_contains query_lower (str_lower (description_of (snd kv))).

(** The payload of a search without result. *)
Definition no_match (query : string) : json :=
  JDict [("message", JStr ("No variables found matching '" ++ query ++ "'"));
         ("suggestions",
          JList [JStr "Try a different search term";
                 JStr "Use list_variables to see all available variables"])].

(** What a search renders for a list of matches. *)
Definition search_payload (query : string) (matches : dict) : json :=
  match matches with
  | [] => no_match query
  | _ => JDict matches
  end.

(** An engine that lists two variables and knows the detail of the first
    only. *)
Definition detail_engine : engine :=
  fun _ req =>
    match req with
    | httpx.GET "/variables" => answer sample_variables
    | httpx.GET "/variable/salary" =>
        answer (JDict [("id", JStr "salary"); ("entity", JStr "person")])
    | httpx.GET "/variable/income_tax" =>
        httpx.Answered
          (httpx.mkResponse 404 "" (Return (JDict [("error", JStr "not found")])))
    | _ => httpx.ConnectError "[Errno 111] Connection refused"
    end.

Definition detail_client : OpenFiscaClient :=
  mkClient "http://localhost:5000" detail_engine.

Definition sample_variable_list : dict :=
  [("salary", JDict [("description", JStr "Salary")]);
   ("income_tax", JDict [("description", JStr "Income tax")])].

(** The report of a situation without error. *)
Definition valid_report : json :=
  JDict [("valid", JBool true);
         ("message", JStr "Situation is valid");
         ("warnings", JList [])].

(** A situation that uses the singular key [household]: the key is
    accepted, the instance under it is not looked at. *)
Definition situation_with_singular_key : dict :=
  [("persons", JDict [("alice", JDict [])]);
   ("household", JDict [("h1", JDict [("adults", JList [JStr "ghost"])])])].

Definition situation_with_unknown_variables : dict :=
  [("persons", JDict [("alice", JDict [("salary", JDict []); ("wage", JDict [])])]);
   ("households", JDict [("h1", JDict [("adults", JList [JStr "alice"]);
                                        ("rent", JDict [])])])].

(** The roles and the definition of [household] in [sample_entities]. *)
Definition household_roles : dict :=
  [("adult", JDict [("key", JStr "adult"); ("plural", JStr "adults"); ("max", JInt 2)]);
   ("child", JDict [("key", JStr "child"); ("plural", JStr "children")])].

Definition household_info : dict :=
  [("plural", JStr "households"); ("roles", JDict household_roles)].

(** ** The report a situation is owed *)

(** What the validator is to answer, written without the program: the two
    reports, and the errors of each check as lists of messages. *)

(** The report of a situation with errors. *)
Definition invalid_report (errors : list string) : json :=
  JDict [("valid", JBool false);
         ("errors", JList (map JStr errors));
         ("warnings", JList [])].

Definition report_for (errors : list string) : json :=
  match errors with
  | [] => valid_report
  | _ :: _ => invalid_report errors
  end.

(** One error per top-level key that is neither the key nor the plural of an
    entity, in key order. *)
Definition key_errors_of (es s : dict) : list string :=
  map (fun k => "Unknown entity type: '" ++ k ++ "'")
      (filter (fun k => negb (accepted es k)) (keys s)).

(** One error when the ["persons"] section holds nobody. *)
Definition missing_person_error (s : dict) : list string :=
  match persons_of s with
  | JDict (_ :: _) => []
  | _ => ["At least one person must be defined"]
  end.

(** One error per key of a person that is no variable, in key order. *)
Definition person_errors (vars : dict) (person : string * json) : list string :=
  let (person_id, body) := person in
  match body with
  | JDict entries =>
      map (fun var => "Unknown variable '" ++ var ++ "' for person '" ++ person_id ++ "'")
          (filter (fun var => negb (known vars var)) (keys entries))
  | _ => []
  end.

Definition variable_errors_of (vars s : dict) : list string :=
  match persons_of s with
  | JDict ps => flat_map (person_errors vars) ps
  | _ => []
  end.

(** The name a role descriptor gives: its plural or, without one, its key. *)
Definition role_name (r : json) : option json :=
  match r with
  | JDict d =>
      match lookup "plural" d with
      | Some p => Some p
      | None => lookup "key" d
      end
  | _ => None
  end.

(** An entry of a group instance is a role assignment when its key is the key
    of a role or (the first descriptor being a mapping) the name a descriptor
    gives. *)
Definition is_role (rs : dict) (key : string) : bool :=
  existsb (String.eqb key) (keys rs)
  || (is_dict (hd (JDict []) (values rs))
      && existsb (fun r => match role_name r with
                           | Some (JStr p) => String.eqb key p
                           | _ => false
                           end) (values rs)).

(** The errors of one entry of a group instance: for a list-valued role
    assignment one error per id that is no person, in list order; for an
    entry that is no role assignment one error if its key is no variable. *)
Definition entry_errors (s vars : dict) (p instance_id : string) (rs : dict)
    (entry : string * json) : list string :=
  let (key, value) := entry in
  if is_role rs key
  then match value with
       | JList ids =>
           map (fun person_id =>
                  "Person '" ++ py_str person_id ++ "' in " ++ p ++ "/" ++ instance_id
                  ++ "/" ++ key ++ " is not defined in persons")
               (filter (fun person_id => negb (defined_person s person_id)) ids)
       | _ => []
       end
  else if known vars key then []
       else ["Unknown variable '" ++ key ++ "' for " ++ p ++ " '" ++ instance_id ++ "'"].

Definition instance_errors (s vars : dict) (p : string) (rs : dict)
    (instance : string * json) : list string :=
  let (instance_id, body) := instance in
  match body with
  | JDict entries => flat_map (entry_errors s vars p instance_id rs) entries
  | _ => []
  end.

(** The errors of the instances of one entity: none for an entity without
    roles; for a group entity those of the instances under its plural. *)
Definition entity_errors (s vars : dict) (entity : string * json) : list string :=
  match snd entity with
  | JDict d =>
      match lookup "roles" d, lookup "plural" d with
      | Some (JDict rs), Some (JStr p) =>
          match lookup p s with
          | Some (JDict instances) => flat_map (instance_errors s vars p rs) instances
          | _ => []
          end
      | _, _ => []
      end
  | _ => []
  end.

Definition group_errors_of (es vars s : dict) : list string :=
  flat_map (entity_errors s vars) es.

(** ** client.py: the connection handle *)

(** [OpenFiscaClient] keeps one [httpx.Client] in [_client], created by the
    [client] property on first use and dropped by [close].  A handle is
    known by its rank of creation; what happens to handles is recorded as
    events.  The timeout is a float: it is kept as a value of a type left
    open. *)
Section Connection.

Variable timeout_t : Type.

Inductive handle_event : Type :=
| Opened (handle : nat) (base_url : string) (timeout : timeout_t)
| Closed (handle : nat).

Record connection : Type := mkConnection {
  conn_base_url : string;
  conn_timeout : timeout_t;
  _client : option nat;
  events : list handle_event
}.

Definition opened_count (evs : list handle_event) : nat :=
  length (filter (fun ev => match ev with Opened _ _ _ => true | Closed _ => false end) evs).

(** [OpenFiscaClient.__init__]: no handle yet. *)
Definition new_connection (base_url : string) (timeout : timeout_t) : connection :=
  mkConnection base_url timeout None [].

(** The [client] property. *)
Definition client_property (self : connection) : nat * connection :=
  match _client self with
  | Some handle => (handle, self)
  | None =>
      let handle := opened_count (events self) in
      (handle,
       mkConnection (conn_base_url self) (conn_timeout self) (Some handle)
         (events self ++ [Opened handle (conn_base_url self) (conn_timeout self)]))
  end.

(** [close]. *)
Definition close (self : connection) : connection :=
  match _client self with
  | Some handle =>
      mkConnection (conn_base_url self) (conn_timeout self) None
        (events self ++ [Closed handle])
  | None => self
  end.

(** What a caller does with the object: use the handle, or close. *)
Inductive call : Type :=
| Use
| Close.

Definition do_call (self : connection) (c : call) : connection :=
  match c with
  | Use => snd (client_property self)
  | Close => close self
  end.

(** The handles that are open after a list of events. *)
Fixpoint live (evs : list handle_event) (open : list nat) : list nat :=
  match evs with
  | [] => open
  | Opened handle _ _ :: rest => live rest (open ++ [handle])
  | Closed handle :: rest => live rest (filter (fun h => negb (Nat.eqb h handle)) open)
  end.

Definition held (self : connection) : list nat :=
  match _client self with
  | Some handle => [handle]
  | None => []
  end.

End Connection.

Arguments Opened {timeout_t} handle base_url timeout.
Arguments Closed {timeout_t} handle.
Arguments mkConnection {timeout_t} conn_base_url conn_timeout _client events.
Arguments conn_base_url {timeout_t} c.
Arguments conn_timeout {timeout_t} c.
Arguments _client {timeout_t} c.
Arguments events {timeout_t} c.
Arguments opened_count {timeout_t} evs.
Arguments new_connection {timeout_t} base_url timeout.
Arguments client_property {timeout_t} self.
Arguments close {timeout_t} self.
Arguments do_call {timeout_t} self c.
Arguments live {timeout_t} evs open.
Arguments held {timeout_t} self.

(** * Properties *)

(** ** The error taxonomy *)

Lemma as_str_list_map_JStr (l : list string) : as_str_list (map JStr l) = Some l.
Proof.
  induction l as [|s l IH]; simpl; [reflexivity|].
  now rewrite IH.
Qed.

(** C8.  Serializing a Tool Error with [to_dict] and reading the five fields
    back recovers its kind, code, message, details and suggestions: the
    serialization is total and loses nothing. *)
Theorem to_dict_roundtrip (e : MCPError) : from_dict (to_dict e) = Some e.
Proof.
  destruct e as [t m c ds sl].
  unfold from_dict, to_dict; cbn [lookup String.eqb error_type code message details suggestions].
  simpl.
  now rewrite as_str_list_map_JStr.
Qed.

(** What the constructor stores is what [to_dict] shows, whatever the
    subclass. *)
Lemma MCPError_init_fields t m c ds sl :
  from_dict (to_dict (MCPError_init t m c ds sl))
  = Some (mkMCPError t m c (or_empty ds) (or_empty sl)).
Proof.
  unfold MCPError_init, from_dict, to_dict. simpl.
  now rewrite as_str_list_map_JStr.
Qed.

(** ** The upstream error normalizer *)

Lemma str_contains_slash_error : str_contains "/" "error" = false.
Proof. reflexivity. Qed.

(** The test [("/" in k or k != "error")] only rejects the key ["error"]. *)
Lemma is_field_key_spec (k : string) : is_field_key k = negb (String.eqb k "error").
Proof.
  unfold is_field_key.
  destruct (String.eqb k "error") eqn:E; simpl.
  - apply String.eqb_eq in E; subst k. reflexivity.
  - apply orb_true_r.
Qed.

(** C5.  A body whose ["error"] key maps to a string [X] is normalized to a
    not_found error (code 404) with message [X] when the status is 404, and
    to a validation error (code 400) with message [X] for any other status. *)
Theorem format_api_error_simple (body : dict) (X : string) (status_code : Z)
    (H : lookup "error" body = Some (JStr X)) :
  format_api_error (JDict body) status_code =
  Return (if (status_code =? 404)%Z
          then mkMCPError "not_found_error" X 404 [] []
          else mkMCPError "validation_error" X 400 [] []).
Proof.
  unfold format_api_error, py_contains, py_getitem, rbind; simpl.
  rewrite H.
  destruct (status_code =? 404)%Z; reflexivity.
Qed.

Lemma format_api_error_simple_witness :
  format_api_error (JDict [("error", JStr "Variable not found")]) 404 =
    Return (mkMCPError "not_found_error" "Variable not found" 404 [] []) /\
  format_api_error (JDict [("error", JStr "Bad period")]) 400 =
    Return (mkMCPError "validation_error" "Bad period" 400 [] []).
Proof.
  split.
  - apply (format_api_error_simple [("error", JStr "Variable not found")]
             "Variable not found" 404). reflexivity.
  - apply (format_api_error_simple [("error", JStr "Bad period")]
             "Bad period" 400). reflexivity.
Defined.

(** C6, as the claim states it, fails: a body keyed by a field path that
    also has an ["error"] entry which is not a string is not of the simple
    shape, and its [details.field_errors] is not the body: the ["error"]
    entry is left out. *)
Lemma field_errors_leave_the_error_entry_out :
  has_error_string [("error", JInt 5); ("persons/alice/salary", JStr "bad value")]
  = false /\
  format_api_error
    (JDict [("error", JInt 5); ("persons/alice/salary", JStr "bad value")]) 400
  = Return (mkMCPError "validation_error"
              "Validation error at persons/alice/salary: bad value" 400
              [("field_errors", JDict [("persons/alice/salary", JStr "bad value")])]
              ["Check the field path and value format"]) /\
  py_eq (JDict [("persons/alice/salary", JStr "bad value")])
        (JDict [("error", JInt 5); ("persons/alice/salary", JStr "bad value")])
  = false /\
  JDict [("persons/alice/salary", JStr "bad value")]
  <> JDict [("error", JInt 5); ("persons/alice/salary", JStr "bad value")].
Proof.
  split; [reflexivity|]. split; [reflexivity|]. split; [reflexivity|].
  intros H. discriminate H.
Qed.

Lemma field_keys_filter (body : dict) :
  filter (fun kv => is_field_key (fst kv)) body
  = filter (fun kv => negb (String.eqb (fst kv) "error")) body.
Proof. apply filter_ext. intros kv. apply is_field_key_spec. Qed.

(** C6, as the code has it.  A body whose ["error"] entry is absent or not a
    string, and which has a key other than ["error"], is normalized to a
    validation error (code 400): [details.field_errors] is the body without
    its ["error"] entry, and the message is built from the first key other
    than ["error"], in iteration order. *)
Theorem format_api_error_field_paths (body : dict) (first_path : string)
    (first_message : json) (others : dict) (status_code : Z)
    (Hsimple : has_error_string body = false)
    (Hfields : filter (fun kv => negb (String.eqb (fst kv) "error")) body
               = (first_path, first_message) :: others) :
  format_api_error (JDict body) status_code =
  Return (mkMCPError "validation_error"
            ("Validation error at " ++ first_path ++ ": " ++ py_str first_message)
            400
            [("field_errors", JDict ((first_path, first_message) :: others))]
            ["Check the field path and value format"]).
Proof.
  unfold format_api_error, py_contains, py_getitem, py_items, rbind.
  cbn [hashable]. unfold has_error_string in Hsimple.
  destruct (lookup "error" body) as [[| | |m| |]|]; try discriminate Hsimple;
    cbn iota beta; rewrite field_keys_filter, Hfields; reflexivity.
Qed.

(** A body keyed by field paths only is kept whole. *)
Example format_api_error_plain :
  format_api_error
    (JDict [("persons/alice/salary", JStr "bad value"); ("persons/bob/age", JInt 3)])
    400 =
  Return (mkMCPError "validation_error"
            "Validation error at persons/alice/salary: bad value" 400
            [("field_errors",
              JDict [("persons/alice/salary", JStr "bad value");
                     ("persons/bob/age", JInt 3)])]
            ["Check the field path and value format"]).
Proof. reflexivity. Qed.

(** A body with no entry at all is the unknown format. *)
Example format_api_error_empty :
  format_api_error (JDict []) 500 =
  Return (mkMCPError "validation_error" "API returned an error" 400
            [("raw_response", JDict [])] []).
Proof. reflexivity. Qed.

Lemma format_api_error_field_paths_witness :
  format_api_error
    (JDict [("error", JInt 5); ("persons/alice/salary", JStr "bad value");
            ("persons/bob/age", JInt 3)])
    422 =
  Return (mkMCPError "validation_error"
            "Validation error at persons/alice/salary: bad value" 400
            [("field_errors",
              JDict [("persons/alice/salary", JStr "bad value");
                     ("persons/bob/age", JInt 3)])]
            ["Check the field path and value format"]).
Proof.
  apply (format_api_error_field_paths
           [("error", JInt 5); ("persons/alice/salary", JStr "bad value");
            ("persons/bob/age", JInt 3)]
           "persons/alice/salary" (JStr "bad value")
           [("persons/bob/age", JInt 3)] 422).
  - reflexivity.
  - reflexivity.
Defined.

(** ** The transport client *)

Lemma run_perform (self : OpenFiscaClient) (op : operation) :
  run self op = perform self (request_of op).
Proof. destruct op; reflexivity. Qed.

(** X6.  No retry: every operation issues exactly one request, whatever
    comes back. *)
Lemma run_single_request (self : OpenFiscaClient) (op : operation)
    (tr : list httpx.request) :
  fst (run self op tr) = (tr ++ [request_of op])%list.
Proof.
  rewrite run_perform. unfold perform, bind, send, lift, raise.
  destruct (transport self tr (request_of op)); reflexivity.
Qed.

(** C9.  When the request of an operation fails to connect, the operation
    raises a connection error with code 503, whose details hold the base
    address and the cause, and whose only suggestion is the default one. *)
Theorem connect_failure_raises_ConnectionError (self : OpenFiscaClient)
    (op : operation) (tr : list httpx.request) (cause : string)
    (H : transport self tr (request_of op) = httpx.ConnectError cause) :
  run self op tr =
  ((tr ++ [request_of op])%list,
   Raise (MCP (mkMCPError "connection_error"
                 ("Cannot connect to OpenFisca API at " ++ base_url self)
                 503
                 [("url", JStr (base_url self)); ("error", JStr cause)]
                 ["Check that the OpenFisca server is running"]))).
Proof.
  rewrite run_perform. unfold perform, bind, send, raise.
  rewrite H. reflexivity.
Qed.

Lemma connect_failure_raises_ConnectionError_witness :
  run (mkClient "http://localhost:5000" unreachable) op_get_entities [] =
  ([httpx.GET "/entities"],
   Raise (MCP (mkMCPError "connection_error"
                 "Cannot connect to OpenFisca API at http://localhost:5000"
                 503
                 [("url", JStr "http://localhost:5000");
                  ("error", JStr "[Errno 111] Connection refused")]
                 ["Check that the OpenFisca server is running"]))).
Proof.
  apply (connect_failure_raises_ConnectionError
           (mkClient "http://localhost:5000" unreachable) op_get_entities []
           "[Errno 111] Connection refused").
  reflexivity.
Defined.

(** ** The handlers' guard *)

(** C10.  On an empty mapping, [calculate], [trace_calculation] and
    [validate_situation] raise the validation error "Situation is required"
    (code 400) and the trace of requests is left as it was: nothing has been
    sent to the engine. *)
Theorem empty_situation_rejected_before_any_request (client : OpenFiscaClient)
    (tr : list httpx.request) :
  let required :=
    MCP (mkMCPError "validation_error" "Situation is required" 400 []
           ["Provide a situation object with persons and households"]) in
  handle_calculate client (JDict []) tr = (tr, Raise required) /\
  handle_trace_calculation client (JDict []) tr = (tr, Raise required) /\
  handle_validate_situation client (JDict []) tr = (tr, Raise required).
Proof.
  intros required.
  assert (Hguard : negb (truthy (JDict [])) = true) by reflexivity.
  split; [|split].
  - unfold handle_calculate. rewrite Hguard. reflexivity.
  - unfold handle_trace_calculation. rewrite Hguard. reflexivity.
  - unfold handle_validate_situation, validation_report, bind.
    rewrite Hguard. reflexivity.
Qed.

(** X9.  The guard is a truth test: every false value ([None], [False], [0],
    the empty string, list or mapping) is rejected the same way, before any
    request. *)
Lemma falsy_situation_rejected (client : OpenFiscaClient) (situation : json)
    (tr : list httpx.request) :
  truthy situation = false ->
  handle_calculate client situation tr = (tr, Raise situation_required) /\
  handle_trace_calculation client situation tr = (tr, Raise situation_required) /\
  handle_validate_situation client situation tr = (tr, Raise situation_required).
Proof.
  intros H.
  unfold handle_calculate, handle_trace_calculation, handle_validate_situation,
    validation_report, bind.
  rewrite H. repeat split.
Qed.

(** ** The tool dispatcher *)

Lemma renders_ret (data : json) : renders (ret (format_result data)).
Proof. intros tr tr' r H. inversion H. eauto. Qed.

Lemma renders_raise (e : exn) : renders (raise e).
Proof. intros tr tr' r H. inversion H. Qed.

Lemma renders_bind {A : Type} (m : io A) (k : A -> io (list TextContent)) :
  (forall a, renders (k a)) -> renders (bind m k).
Proof.
  intros Hk tr tr' r. unfold bind.
  destruct (m tr) as [tr1 [a|e]]; intros H.
  - eapply Hk; eassumption.
  - inversion H.
Qed.

Lemma renders_if (b : bool) (m1 m2 : io (list TextContent)) :
  renders m1 -> renders m2 -> renders (if b then m1 else m2).
Proof. destruct b; auto. Qed.

Ltac renders_step :=
  first [ apply renders_ret | apply renders_raise
        | apply renders_if | apply renders_bind; intro ].

Lemma dispatch_renders (client : OpenFiscaClient) (name : string) (arguments : dict) :
  renders (dispatch client name arguments).
Proof.
  unfold dispatch, handle_list_entities, handle_list_variables,
    handle_describe_variable, handle_list_parameters, handle_get_parameter,
    handle_search_variables, handle_calculate, handle_trace_calculation,
    handle_validate_situation.
  repeat renders_step.
  match goal with |- renders (match ?m with _ => _ end) => destruct m end;
    apply renders_ret.
Qed.

Lemma format_result_single (data : json) : exists payload, format_result data = [payload].
Proof. unfold format_result. destruct (is_dict data); eauto. Qed.

(** C7, as the code has it.  Every call ends with exactly one rendered
    payload and no exception: the handler's success rendering, or the
    serialization of the taxonomy error it raised, unchanged, or, for any
    other exception, the serialization of an internal error (code 500) with
    the exception's message.  A name no handler matches raises the validation
    error "Unknown tool: <name>", the name unquoted, without any request. *)
Theorem call_tool_renders_once (client : OpenFiscaClient) (name : string)
    (arguments : dict) (tr : list httpx.request) :
  exists payload,
    call_tool client name arguments tr
    = (fst (dispatch client name arguments tr), Return [payload]) /\
    match snd (dispatch client name arguments tr) with
    | Return rendered => rendered = [payload] /\ exists data, rendered = format_result data
    | Raise (MCP e) => format_error e = [payload]
    | Raise (Py _ msg) =>
        format_error (mkMCPError "internal_error" msg 500 [] []) = [payload]
    end /\
    (if existsb (String.eqb name) list_tools then True
     else dispatch client name arguments tr
          = (tr, Raise (MCP (mkMCPError "validation_error" ("Unknown tool: " ++ name)
                               400 [] [])))).
Proof.
  assert (Hunknown :
    if existsb (String.eqb name) list_tools then True
    else dispatch client name arguments tr
         = (tr, Raise (MCP (mkMCPError "validation_error" ("Unknown tool: " ++ name)
                              400 [] [])))).
  { destruct (existsb (String.eqb name) list_tools) eqn:E; [exact I|].
    unfold list_tools in E. cbn [existsb] in E.
    repeat (apply orb_false_elim in E; destruct E as [?E E]).
    unfold dispatch.
    repeat match goal with H : String.eqb name _ = false |- _ => rewrite H; clear H end.
    reflexivity. }
  pose proof (dispatch_renders client name arguments tr) as Hr.
  unfold call_tool.
  destruct (dispatch client name arguments tr) as [tr' [rendered|[e|cls msg]]]; cbn [fst snd].
  - destruct (Hr tr' rendered eq_refl) as [data ->].
    destruct (format_result_single data) as [payload Hp].
    exists payload. rewrite Hp in Hunknown |- *.
    split; [reflexivity|]. split; [|exact Hunknown].
    split; [reflexivity|]. exists data. symmetry. exact Hp.
  - eexists. split; [reflexivity|]. split; [reflexivity|exact Hunknown].
  - eexists. split; [reflexivity|]. split; [reflexivity|exact Hunknown].
Qed.

(** C7, as the claim words the unknown-tool message (the name between single
    quotes), fails: the message the dispatcher builds has no quotes. *)
Lemma unknown_tool_message_is_unquoted :
  dispatch (mkClient "http://localhost:5000" unreachable) "frobnicate" [] []
  = ([], Raise (MCP (mkMCPError "validation_error" "Unknown tool: frobnicate"
                       400 [] []))) /\
  ~ (exists e,
       snd (dispatch (mkClient "http://localhost:5000" unreachable)
              "frobnicate" [] []) = Raise (MCP e) /\
       error_type e = "validation_error" /\
       message e = "Unknown tool: 'frobnicate'").
Proof.
  split; [reflexivity|].
  intros [e [H [_ Hm]]].
  cbn in H. inversion H; subst e. discriminate Hm.
Qed.

Example call_tool_unknown :
  call_tool (mkClient "http://localhost:5000" unreachable) "frobnicate" [] [] =
  ([], Return (format_error (mkMCPError "validation_error" "Unknown tool: frobnicate"
                               400 [] []))).
Proof. reflexivity. Qed.

(** ** The situation validator *)

(** *** Loops *)

Lemma for_each_pure {A B : Type} (body : A -> result (list B)) (f : A -> list B)
    (l : list A) :
  (forall x, In x l -> body x = Return (f x)) ->
  for_each body l = Return (flat_map f l).
Proof.
  induction l as [|x l IH]; intros H; cbn [for_each flat_map]; [reflexivity|].
  rewrite (H x (or_introl eq_refl)), IH; [reflexivity|].
  intros y Hy. apply H. now right.
Qed.

Lemma for_each_total {A B : Type} (body : A -> result (list B)) (l : list A) :
  (forall x, In x l -> exists ys, body x = Return ys) ->
  exists zs, for_each body l = Return zs.
Proof.
  induction l as [|x l IH]; intros H; cbn [for_each]; [eauto|].
  destruct (H x (or_introl eq_refl)) as [ys ->].
  destruct IH as [zs ->]; [|eauto].
  intros y Hy. apply H. now right.
Qed.

(** The errors of one iteration sit, in one block, in the errors of the
    loop. *)
Lemma for_each_In_split {A B : Type} (body : A -> result (list B)) (l : list A)
    (zs : list B) (x : A) :
  for_each body l = Return zs -> In x l ->
  exists pre ys post, body x = Return ys /\ zs = (pre ++ ys ++ post)%list.
Proof.
  revert zs. induction l as [|a l IH]; intros zs H Hin; [contradiction|].
  cbn [for_each] in H.
  destruct (body a) as [ys|e] eqn:Ha; [|discriminate].
  destruct (for_each body l) as [zs'|e] eqn:Hl; [|discriminate].
  injection H as <-.
  destruct Hin as [->|Hin].
  - exists [], ys, zs'. auto.
  - destruct (IH zs' eq_refl Hin) as (pre & ys' & post & Hx & ->).
    exists (ys ++ pre)%list, ys', post. split; [assumption|].
    now rewrite <- app_assoc.
Qed.

Lemma for_each_Forall {A B : Type} (P : B -> Prop) (body : A -> result (list B))
    (l : list A) (zs : list B) :
  (forall x ys, In x l -> body x = Return ys -> Forall P ys) ->
  for_each body l = Return zs -> Forall P zs.
Proof.
  revert zs. induction l as [|a l IH]; intros zs HP H; cbn [for_each] in H.
  - injection H as <-. constructor.
  - destruct (body a) as [ys|e] eqn:Ha; [|discriminate].
    destruct (for_each body l) as [zs'|e] eqn:Hl; [|discriminate].
    injection H as <-. apply Forall_app. split.
    + eapply HP; [left; reflexivity|eassumption].
    + apply IH; [|reflexivity]. intros y ys' Hy. apply HP. now right.
Qed.

Lemma flat_map_optional {A B : Type} (p : A -> bool) (m : A -> B) (l : list A) :
  flat_map (fun x => if p x then [] else [m x]) l
  = map m (filter (fun x => negb (p x)) l).
Proof.
  induction l as [|x l IH]; cbn [flat_map filter map]; [reflexivity|].
  destruct (p x); cbn [negb app map]; now rewrite IH.
Qed.

(** *** The checks on well-shaped data *)

Lemma forallb_In {A : Type} (f : A -> bool) (l : list A) (x : A) :
  forallb f l = true -> In x l -> f x = true.
Proof. intros H Hx. rewrite forallb_forall in H. auto. Qed.

Lemma In_values (k : string) (v : json) (d : dict) : In (k, v) d -> In v (values d).
Proof. intros H. apply (in_map snd) in H. exact H. Qed.

Lemma In_keys (k : string) (v : json) (d : dict) : In (k, v) d -> In k (keys d).
Proof. intros H. apply (in_map fst) in H. exact H. Qed.

Lemma entity_ok_inv (entity_info : json) :
  entity_ok entity_info = true ->
  exists d p, entity_info = JDict d /\ lookup "plural" d = Some (JStr p).
Proof.
  destruct entity_info as [| | | |l|d]; cbn [entity_ok]; intros H;
    try discriminate H.
  destruct (lookup "plural" d) as [[| | |p| |]|] eqn:Hp; try discriminate H.
  exists d, p. split; [reflexivity|exact Hp].
Qed.

Lemma valid_entity_plurals_total (es : dict) :
  forallb entity_ok (values es) = true ->
  exists valid, valid_entity_plurals (JDict es) = Return valid.
Proof.
  intros H. unfold valid_entity_plurals, py_values, py_keys, rbind.
  destruct (for_each_total
              (fun e => rbind (py_getitem e "plural")
                          (fun p => if hashable p then Return [p] else Raise (unhashable p)))
              (values es)) as [plurals Hpl].
  - intros e He.
    destruct (entity_ok_inv e (forallb_In _ _ _ H He)) as (d & p & -> & Hp).
    unfold py_getitem, rbind. rewrite Hp. cbn. eauto.
  - unfold rbind in Hpl. rewrite Hpl. eauto.
Qed.

Lemma check_top_level_keys_dict (s : dict) (valid : list json) :
  check_top_level_keys (JDict s) valid
  = Return (map (fun k => unknown_entity_type (JStr k))
              (filter (fun k => negb (existsb (py_eq (JStr k)) valid)) (keys s))).
Proof.
  unfold check_top_level_keys, py_iter, rbind.
  rewrite <- flat_map_optional.
  generalize (keys s) as ks. intros ks.
  induction ks as [|k ks IH]; cbn [map for_each flat_map]; [reflexivity|].
  rewrite IH. unfold set_contains. cbn [hashable].
  destruct (existsb (py_eq (JStr k)) valid); reflexivity.
Qed.

Lemma check_person_variables_total (ps vars : dict) :
  forallb is_dict (values ps) = true ->
  exists errors, check_person_variables (JDict ps) (JDict vars) = Return errors.
Proof.
  intros H. unfold check_person_variables, py_items, rbind.
  apply for_each_total. intros [person_id person_data] Hin.
  pose proof (forallb_In _ _ _ H (In_values _ _ _ Hin)) as Hd.
  destruct person_data; try discriminate.
  unfold py_iter. apply for_each_total.
  intros var_name Hv. apply in_map_iff in Hv. destruct Hv as (k & <- & _).
  cbn. eauto.
Qed.

Lemma roles_ok_inv (roles : json) :
  roles_ok roles = true ->
  exists rs, roles = JDict rs /\
    (is_dict (hd (JDict []) (values rs)) = true -> forallb role_ok (values rs) = true).
Proof.
  destruct roles as [| | | |l|rs]; cbn [roles_ok]; intros H; try discriminate H.
  exists rs. split; [reflexivity|]. intros Hd. now rewrite Hd in H.
Qed.

Lemma role_plural_total (r : json) :
  role_ok r = true -> exists p, role_plural r = Return p /\ hashable p = true.
Proof.
  destruct r as [| | | |l|d]; cbn [role_ok]; intros H; try discriminate H.
  unfold role_plural, py_getitem, py_get, rbind.
  destruct (lookup "key" d) as [k|]; [|discriminate H].
  cbn [hashable]. eauto.
Qed.

Lemma role_plurals_of_total (roles : json) :
  roles_ok roles = true -> exists plurals, role_plurals_of roles = Return plurals.
Proof.
  intros H. destruct (roles_ok_inv roles H) as (rs & -> & Hrs).
  unfold role_plurals_of, py_values, rbind.
  destruct (is_dict (hd (JDict []) (values rs))); [|eauto].
  apply for_each_total. intros r Hr.
  destruct (role_plural_total r (forallb_In _ _ _ (Hrs eq_refl) Hr)) as (p & Hp & Hh).
  unfold rbind. rewrite Hp, Hh. eauto.
Qed.

Lemma check_instance_entry_total (persons vars : dict) (entity_plural : json)
    (instance_id : string) (role_keys : list string) (role_plurals : list json)
    (key : string) (value : json) :
  match value with JList ids => forallb hashable ids | _ => true end = true ->
  exists errors,
    check_instance_entry (JDict persons) (JDict vars) entity_plural instance_id
      role_keys role_plurals (key, value) = Return errors.
Proof.
  intros H. unfold check_instance_entry.
  destruct (existsb (String.eqb key) role_keys || existsb (py_eq (JStr key)) role_plurals).
  - destruct value; eauto.
    apply for_each_total. intros person_id Hin.
    unfold py_contains, rbind. rewrite (forallb_In _ _ _ H Hin). eauto.
  - cbn. eauto.
Qed.

Lemma check_instance_total (persons vars d : dict) (roles entity_plural : json)
    (instance_id : string) (instance_data : json) :
  lookup "roles" d = Some roles -> roles_ok roles = true ->
  group_body_ok instance_data = true ->
  exists errors,
    check_instance (JDict persons) (JDict vars) (JDict d) entity_plural
      (instance_id, instance_data) = Return errors.
Proof.
  intros Hr Hok Hb. unfold check_instance, py_getitem, rbind. rewrite Hr.
  destruct (roles_ok_inv roles Hok) as (rs & Hrs & _).
  destruct (role_plurals_of_total roles Hok) as [plurals ->].
  subst roles. cbn [py_keys].
  destruct instance_data as [| | | |l|entries]; try discriminate Hb.
  cbn [py_items group_body_ok] in *.
  apply for_each_total. intros [key value] Hin.
  apply check_instance_entry_total.
  exact (forallb_In _ _ _ Hb (In_values _ _ _ Hin)).
Qed.

Lemma check_entity_total (s persons vars : dict) (entity_key : string)
    (entity_info : json) :
  entity_ok entity_info = true -> group_section_ok s entity_info = true ->
  exists errors,
    check_entity (JDict s) (JDict persons) (JDict vars) (entity_key, entity_info)
    = Return errors.
Proof.
  intros Hok Hsec.
  destruct (entity_ok_inv entity_info Hok) as (d & p & -> & Hp).
  unfold check_entity, py_contains, py_getitem, py_get, rbind.
  cbn [hashable group_section_ok] in *. rewrite Hp in *.
  destruct (lookup "roles" d) as [roles|] eqn:Hr; cbn [negb]; [|eauto].
  assert (Hinst : exists instances,
             match lookup p s with Some x => x | None => JDict [] end = JDict instances
             /\ (instances = [] \/
                 roles_ok roles = true /\
                 forallb group_body_ok (values instances) = true)).
  { destruct (lookup p s) as [section|]; [|exists []; auto].
    destruct section as [| | | |l|[|i instances]];
      try (apply andb_true_iff in Hsec; destruct Hsec as [_ Hsec]; discriminate Hsec).
    - exists []. auto.
    - apply andb_true_iff in Hsec. exists (i :: instances). auto. }
  destruct Hinst as (instances & -> & [->|[Hroles Hbodies]]); cbn [py_items].
  - cbn. eauto.
  - apply for_each_total. intros [instance_id instance_data] Hin.
    apply (check_instance_total persons vars d roles); auto.
    exact (forallb_In _ _ _ Hbodies (In_values _ _ _ Hin)).
Qed.

Lemma check_group_entities_total (es s persons vars : dict) :
  forallb entity_ok (values es) = true ->
  forallb (group_section_ok s) (values es) = true ->
  exists errors,
    check_group_entities (JDict es) (JDict s) (JDict persons) (JDict vars)
    = Return errors.
Proof.
  intros Hok Hsec. unfold check_group_entities, py_items, rbind.
  apply for_each_total. intros [entity_key entity_info] Hin.
  apply check_entity_total.
  - exact (forallb_In _ _ _ Hok (In_values _ _ _ Hin)).
  - exact (forallb_In _ _ _ Hsec (In_values _ _ _ Hin)).
Qed.

(** *** The report as a whole *)

Lemma validation_report_inv (client : OpenFiscaClient) (situation : json)
    (tr tr' : list httpx.request) (report : json) :
  validation_report client situation tr = (tr', Return report) ->
  exists s entities valid key_errors all_vars variable_errors group_errors tr1,
    situation = JDict s /\ s <> [] /\
    get_entities client tr = (tr1, Return entities) /\
    valid_entity_plurals entities = Return valid /\
    check_top_level_keys situation valid = Return key_errors /\
    get_variables client tr1 = (tr', Return all_vars) /\
    check_person_variables (persons_of s) all_vars = Return variable_errors /\
    check_group_entities entities situation (persons_of s) all_vars
      = Return group_errors /\
    report = verdict (key_errors
                      ++ (if truthy (persons_of s) then [] else [no_person])
                      ++ variable_errors ++ group_errors)%list [].
Proof.
  unfold validation_report, bind, lift, ret.
  destruct (truthy situation) eqn:Ht; cbn [negb]; [|discriminate].
  destruct (get_entities client tr) as [tr1 [entities|e]] eqn:He; [|discriminate].
  destruct (valid_entity_plurals entities) as [valid|e] eqn:Hv; [|discriminate].
  destruct (check_top_level_keys situation valid) as [key_errors|e] eqn:Hk;
    [|discriminate].
  destruct (py_get situation (JStr "persons") (JDict [])) as [persons|e] eqn:Hp;
    [|discriminate].
  destruct (get_variables client tr1) as [tr2 [all_vars|e]] eqn:Ha; [|discriminate].
  destruct (check_person_variables persons all_vars) as [variable_errors|e] eqn:Hpv;
    [|discriminate].
  destruct (check_group_entities entities situation persons all_vars)
    as [group_errors|e] eqn:Hg; [|discriminate].
  intros H. injection H as <- <-.
  destruct situation as [| | | |l|s]; try discriminate Hp.
  cbn in Hp. injection Hp as <-.
  exists s, entities, valid, key_errors, all_vars, variable_errors, group_errors, tr1.
  repeat (split; [first [reflexivity | assumption | idtac]|]); try reflexivity.
  intros ->. discriminate Ht.
Qed.

Lemma validation_report_total (client : OpenFiscaClient)
    (situation entities all_vars : json) (tr tr1 tr2 : list httpx.request) :
  truthy situation = true ->
  well_shaped entities all_vars situation = true ->
  get_entities client tr = (tr1, Return entities) ->
  get_variables client tr1 = (tr2, Return all_vars) ->
  exists report, validation_report client situation tr = (tr2, Return report).
Proof.
  intros Ht Hw He Ha.
  unfold well_shaped in Hw. apply andb_true_iff in Hw. destruct Hw as [Hw Hs].
  apply andb_true_iff in Hw. destruct Hw as [Hes Hvars].
  destruct all_vars as [| | | |l|vars]; try discriminate Hvars.
  destruct situation as [| | | |l|s]; try discriminate Hs.
  destruct entities as [| | | |l|es]; try discriminate Hs.
  cbn [entities_ok situation_ok] in *.
  apply andb_true_iff in Hs. destruct Hs as [Hpersons Hgroups].
  assert (Hps : exists ps, persons_of s = JDict ps /\ forallb is_dict (values ps) = true).
  { unfold persons_of. destruct (lookup "persons" s) as [persons|]; [|exists []; auto].
    destruct persons; try discriminate Hpersons. eauto. }
  destruct Hps as (ps & Hps & Hbodies).
  destruct (valid_entity_plurals_total es Hes) as [valid Hvalid].
  destruct (check_person_variables_total ps vars Hbodies) as [variable_errors Hpv].
  destruct (check_group_entities_total es s ps vars Hes Hgroups) as [group_errors Hg].
  unfold validation_report. rewrite Ht. cbn [negb].
  unfold bind, lift, ret.
  rewrite He, Hvalid, check_top_level_keys_dict. cbn [py_get hashable].
  fold (persons_of s). rewrite Ha, Hps, Hpv, Hg. eauto.
Qed.

(** *** The messages of each check *)

Section Messages.

Variable P : string -> Prop.


Lemma check_person_variables_Forall (persons all_vars : json) (errors : list string) :
  (forall var_name person_id, P (unknown_person_variable var_name person_id)) ->
  check_person_variables persons all_vars = Return errors -> Forall P errors.
Proof.
  intros HP. unfold check_person_variables, rbind.
  destruct (py_items persons) as [ps|e]; [|discriminate].
  apply for_each_Forall. intros [person_id person_data] ys _.
  destruct (py_iter person_data) as [vs|e]; [|discriminate].
  apply for_each_Forall. intros var_name zs _ H.
  destruct (py_contains var_name all_vars) as [[|]|e]; try discriminate H;
    injection H as <-; auto.
Qed.

Hypothesis P_dangling :
  forall person_id entity_plural instance_id key,
    P (dangling_person person_id entity_plural instance_id key).
Hypothesis P_group_variable :
  forall key entity_plural instance_id,
    P (unknown_group_variable key entity_plural instance_id).

Lemma check_instance_entry_Forall persons all_vars entity_plural instance_id
    role_keys role_plurals entry (errors : list string) :
  check_instance_entry persons all_vars entity_plural instance_id role_keys
    role_plurals entry = Return errors ->
  Forall P errors.
Proof.
  destruct entry as [key value]. unfold check_instance_entry, rbind.
  destruct (existsb (String.eqb key) role_keys || existsb (py_eq (JStr key)) role_plurals).
  - destruct value; try (intros H; injection H as <-; constructor).
    apply for_each_Forall. intros person_id ys _ H.
    destruct (py_contains person_id persons) as [[|]|e]; try discriminate H;
      injection H as <-; auto.
  - intros H.
    destruct (py_contains (JStr key) all_vars) as [[|]|e]; try discriminate H;
      injection H as <-; auto.
Qed.

Lemma check_group_entities_Forall entities situation persons all_vars
    (errors : list string) :
  check_group_entities entities situation persons all_vars = Return errors ->
  Forall P errors.
Proof.
  unfold check_group_entities, rbind.
  destruct (py_items entities) as [es|e]; [|discriminate].
  apply for_each_Forall. intros [entity_key entity_info] ys _.
  unfold check_entity, rbind.
  destruct (py_contains (JStr "roles") entity_info) as [[|]|e]; cbn [negb];
    try discriminate; [|intros H; injection H as <-; constructor].
  destruct (py_getitem entity_info "plural") as [entity_plural|e]; [|discriminate].
  destruct (py_get situation entity_plural (JDict [])) as [group_instances|e];
    [|discriminate].
  destruct (py_items group_instances) as [instances|e]; [|discriminate].
  apply for_each_Forall. intros [instance_id instance_data] zs _.
  unfold check_instance, rbind.
  destruct (py_getitem entity_info "roles") as [roles|e]; [|discriminate].
  destruct (py_keys roles) as [role_keys|e]; [|discriminate].
  destruct (role_plurals_of roles) as [role_plurals|e]; [|discriminate].
  destruct (py_items instance_data) as [entries|e]; [|discriminate].
  apply for_each_Forall. intros entry ws _.
  apply check_instance_entry_Forall.
Qed.

End Messages.

(** *** Accepted top-level keys *)

Lemma accepted_accepts (es : dict) (k : string) :
  accepted es k = true <-> accepts es k.
Proof.
  unfold accepted, accepts. rewrite orb_true_iff, !existsb_exists. split.
  - intros [(entity_info & Hin & H)|(k' & Hin & H)].
    + right. exists entity_info. split; [assumption|].
      unfold has_plural in H.
      destruct (plural_of entity_info) as [[| | |p| |]|]; try discriminate H.
      apply String.eqb_eq in H. now subst.
    + left. apply String.eqb_eq in H. now subst.
  - intros [Hin|(entity_info & Hin & H)].
    + right. exists k. split; [assumption|apply String.eqb_refl].
    + left. exists entity_info. split; [assumption|].
      unfold has_plural. rewrite H. apply String.eqb_refl.
Qed.

Lemma existsb_py_eq_JStr (k : string) (ks : list string) :
  existsb (py_eq (JStr k)) (map JStr ks) = existsb (String.eqb k) ks.
Proof.
  induction ks as [|k' ks IH]; cbn [map existsb]; [reflexivity|now rewrite IH].
Qed.

(** The set the validator builds holds the accepted keys and nothing else. *)
Lemma valid_entity_plurals_inv (entities : json) (valid : list json) :
  valid_entity_plurals entities = Return valid ->
  exists es, entities = JDict es /\
    forall k, existsb (py_eq (JStr k)) valid = accepted es k.
Proof.
  unfold valid_entity_plurals.
  destruct entities as [| | | |l|es]; try discriminate.
  cbn [py_values py_keys rbind]. intros H. exists es. split; [reflexivity|].
  intros k. unfold accepted.
  revert H. generalize (keys es) as ks. generalize (values es) as vs.
  intros vs ks.
  destruct (for_each _ vs) as [plurals|e] eqn:Hpl; [|discriminate].
  intros H. injection H as <-.
  rewrite existsb_app, existsb_py_eq_JStr. f_equal.
  clear ks. revert plurals Hpl.
  induction vs as [|entity_info vs IH]; intros plurals Hpl; cbn [for_each] in Hpl.
  - injection Hpl as <-. reflexivity.
  - unfold rbind in Hpl at 1.
    destruct (py_getitem entity_info "plural") as [p|e] eqn:Hp; [|discriminate].
    destruct (hashable p); [|discriminate].
    destruct (for_each _ vs) as [rest|e]; [|discriminate].
    injection Hpl as <-. cbn [app existsb]. rewrite (IH rest eq_refl). f_equal.
    unfold has_plural, plural_of.
    destruct entity_info as [| | | |l|d]; try discriminate Hp.
    cbn in Hp. destruct (lookup "plural" d) as [p'|]; [|discriminate].
    injection Hp as ->. destruct p; reflexivity.
Qed.

(** *** The claims about the validator *)


(** The key errors of a report, and what follows them. *)
Lemma validation_report_key_errors (client : OpenFiscaClient) (situation : json)
    (tr tr' : list httpx.request) (report : json) :
  validation_report client situation tr = (tr', Return report) ->
  exists s es rest,
    situation = JDict s /\
    snd (get_entities client tr) = Return (JDict es) /\
    report = verdict (map (fun k => unknown_entity_type (JStr k))
                        (filter (fun k => negb (accepted es k)) (keys s))
                      ++ rest)%list [] /\
    Forall (fun m => mentions_entity_type m = false) rest.
Proof.
  intros H.
  destruct (validation_report_inv _ _ _ _ _ H)
    as (s & entities & valid & key_errors & all_vars & variable_errors
        & group_errors & tr1 & -> & Hne & He & Hvalid & Hk & Ha & Hpv & Hg & ->).
  destruct (valid_entity_plurals_inv _ _ Hvalid) as (es & -> & Hacc).
  rewrite check_top_level_keys_dict in Hk.
  rewrite (filter_ext _ (fun k => negb (accepted es k))) in Hk
    by (intros k; now rewrite Hacc).
  injection Hk as <-.
  exists s, es,
    ((if truthy (persons_of s) then [] else [no_person])
     ++ variable_errors ++ group_errors)%list.
  split; [reflexivity|]. split; [now rewrite He|]. split.
  - reflexivity.
  - apply Forall_app. split.
    + destruct (truthy (persons_of s)); repeat constructor.
    + apply Forall_app. split.
      * eapply check_person_variables_Forall; [|eassumption]. reflexivity.
      * eapply check_group_entities_Forall; [| |eassumption]; reflexivity.
Qed.

Lemma verdict_report_for (errors : list string) : verdict errors [] = report_for errors.
Proof. destruct errors; reflexivity. Qed.

(** C3, as the claim states it, fails: the validator checks no shape, and
    when a later check raises, the key outside the accepted set gets no
    error at all.  So it is with a person whose body is a number, and with
    role descriptors that hold [plural] and no [key]. *)
Lemma unknown_key_not_always_reported :
  (accepted sample_entities "companies" = false /\
   validation_report sample_client
     (JDict [("companies", JDict []); ("persons", JDict [("alice", JInt 5)])]) []
   = (fetched, Raise (Py "TypeError" "'int' object is not iterable"))) /\
  (accepted plain_entities "companies" = false /\
   validation_report plain_client
     (JDict [("companies", JDict []);
             ("persons", JDict [("alice", JDict [])]);
             ("households", JDict [("h1", JDict [("adults", JList [JStr "alice"])])])])
     []
   = (fetched, Raise (Py "KeyError" "'key'"))).
Proof. repeat split. Qed.

(** C3, as the code has it.  Once the entities are fetched, a non-empty
    situation that is well-shaped gets a report; and whenever the validator
    returns a report, its errors start with one
    "Unknown entity type: '<key>'" for each top-level key that is neither the
    key nor the plural form of an entity, in key order, and no later error is
    of that kind. *)
Theorem top_level_keys_checked (client : OpenFiscaClient) (s es : dict)
    (all_vars : json) (tr tr1 tr2 : list httpx.request)
    (Hs : truthy (JDict s) = true)
    (He : get_entities client tr = (tr1, Return (JDict es)))
    (Ha : get_variables client tr1 = (tr2, Return all_vars)) :
  (well_shaped (JDict es) all_vars (JDict s) = true ->
   exists report, validation_report client (JDict s) tr = (tr2, Return report)) /\
  (forall out report,
     validation_report client (JDict s) tr = (out, Return report) ->
     exists rest,
       report = report_for
                  (map (fun k => ("Unknown entity type: '" ++ k ++ "'")%string)
                       (filter (fun k => negb (accepted es k)) (keys s))
                   ++ rest)%list /\
       Forall (fun m => prefix "Unknown entity type: '" m = false) rest).
Proof.
  split.
  - intros Hw. exact (validation_report_total _ _ _ _ _ _ _ Hs Hw He Ha).
  - intros out report Hr.
    destruct (validation_report_key_errors _ _ _ _ _ Hr)
      as (s' & es' & rest & Hs' & He' & -> & Hrest).
    injection Hs' as <-. rewrite He in He'. injection He' as <-.
    exists rest. split; [apply verdict_report_for|exact Hrest].
Qed.

Lemma top_level_keys_checked_witness :
  exists report rest,
    validation_report sample_client (JDict situation_with_unknown_key) []
    = (fetched, Return report) /\
    report = report_for
               (map (fun k => ("Unknown entity type: '" ++ k ++ "'")%string)
                    (filter (fun k => negb (accepted sample_entities k))
                            (keys situation_with_unknown_key))
                ++ rest)%list /\
    Forall (fun m => prefix "Unknown entity type: '" m = false) rest.
Proof.
  destruct (top_level_keys_checked sample_client situation_with_unknown_key
              sample_entities sample_variables [] [httpx.GET "/entities"] fetched
              eq_refl eq_refl eq_refl) as [Hreturns Hreport].
  destruct (Hreturns eq_refl) as [report Hr].
  destruct (Hreport fetched report Hr) as (rest & Herrors & Hrest).
  exists report, rest. split; [exact Hr|]. split; [exact Herrors|exact Hrest].
Defined.

Example unknown_key_report :
  validation_report sample_client (JDict situation_with_unknown_key) []
  = (fetched,
     Return (JDict [("valid", JBool false);
                    ("errors", JList [JStr "Unknown entity type: 'companies'"]);
                    ("warnings", JList [])])).
Proof. reflexivity. Qed.

(** C4, as the code has it.  On a non-empty well-shaped situation, once the
    entities and the variables are fetched, [validate_situation] returns one
    text payload: the rendering of
    [{valid: true, message: "Situation is valid", warnings: []}] or of
    [{valid: false, errors: [...], warnings: []}] with at least one error.
    Well-shaped ([well_shaped]): the entities are a mapping of mappings with
    a string [plural]; the variables are a mapping; the situation is a
    mapping; its ["persons"] entry, if any, is a mapping of mappings; and for
    each entity with [roles] whose plural is a key of the situation with a
    value other than [{}], that value is a mapping of mappings, no
    list-valued entry of an instance holds a list or a mapping, the [roles]
    are a mapping and, if the first role descriptor is a mapping, every
    descriptor is a mapping with a [key] whose plural (or, without plural,
    whose key) is no list and no mapping. *)
Theorem well_shaped_situation_gets_a_verdict (client : OpenFiscaClient)
    (situation entities all_vars : json) (tr tr1 tr2 : list httpx.request)
    (Hs : truthy situation = true)
    (Hw : well_shaped entities all_vars situation = true)
    (He : get_entities client tr = (tr1, Return entities))
    (Ha : get_variables client tr1 = (tr2, Return all_vars)) :
  exists report,
    handle_validate_situation client situation tr
    = (tr2, Return [mkTextContent "text" (json_dumps report)]) /\
    (report = JDict [("valid", JBool true);
                     ("message", JStr "Situation is valid");
                     ("warnings", JList [])]
     \/ exists e errors,
          report = JDict [("valid", JBool false);
                          ("errors", JList (map JStr (e :: errors)));
                          ("warnings", JList [])]).
Proof.
  destruct (validation_report_total _ _ _ _ _ _ _ Hs Hw He Ha) as [report Hr].
  exists report.
  destruct (validation_report_inv _ _ _ _ _ Hr)
    as (s & _ & _ & key_errors & _ & variable_errors & group_errors & _
        & _ & _ & _ & _ & _ & _ & _ & _ & Hreport).
  revert Hreport.
  generalize (key_errors ++ (if truthy (persons_of s) then [] else [no_person])
              ++ variable_errors ++ group_errors)%list.
  intros errors ->. split.
  - unfold handle_validate_situation, bind, ret. rewrite Hr.
    destruct errors; reflexivity.
  - destruct errors as [|e errors]; [left; reflexivity|].
    right. exists e, errors. reflexivity.
Qed.

Lemma well_shaped_situation_gets_a_verdict_witness :
  exists report,
    handle_validate_situation sample_client (JDict valid_situation) []
    = (fetched, Return [mkTextContent "text" (json_dumps report)]) /\
    (report = JDict [("valid", JBool true);
                     ("message", JStr "Situation is valid");
                     ("warnings", JList [])]
     \/ exists e errors,
          report = JDict [("valid", JBool false);
                          ("errors", JList (map JStr (e :: errors)));
                          ("warnings", JList [])]).
Proof.
  exact (well_shaped_situation_gets_a_verdict sample_client (JDict valid_situation)
           (JDict sample_entities) sample_variables [] [httpx.GET "/entities"] fetched
           eq_refl eq_refl eq_refl eq_refl).
Defined.

Example valid_situation_report :
  validation_report sample_client (JDict valid_situation) []
  = (fetched,
     Return (JDict [("valid", JBool true);
                    ("message", JStr "Situation is valid");
                    ("warnings", JList [])])).
Proof. reflexivity. Qed.

(** C4, as the claim states it, fails: with the schema fetched, the handler
    raises on a person whose body is a number, on a ["persons"] section that
    is a number, on a group section that is a list, on a group instance whose
    body is a number, on a role list that holds a list and, with role
    descriptors that hold [plural] and no [key], on any group instance. *)
Lemma non_mapping_instance_body_raises :
  truthy (JDict [("persons", JDict [("alice", JInt 5)])]) = true /\
  get_entities sample_client [] = ([httpx.GET "/entities"], Return (JDict sample_entities)) /\
  get_variables sample_client [httpx.GET "/entities"] = (fetched, Return sample_variables) /\
  handle_validate_situation sample_client
    (JDict [("persons", JDict [("alice", JInt 5)])]) []
  = (fetched, Raise (Py "TypeError" "'int' object is not iterable")) /\
  handle_validate_situation sample_client (JDict [("persons", JInt 5)]) []
  = (fetched, Raise (Py "AttributeError" "'int' object has no attribute 'items'")) /\
  handle_validate_situation sample_client
    (JDict [("persons", JDict [("alice", JDict [])]); ("households", JList [])]) []
  = (fetched, Raise (Py "AttributeError" "'list' object has no attribute 'items'")) /\
  handle_validate_situation sample_client
    (JDict [("persons", JDict [("alice", JDict [])]);
            ("households", JDict [("h1", JInt 5)])]) []
  = (fetched, Raise (Py "AttributeError" "'int' object has no attribute 'items'")) /\
  handle_validate_situation sample_client
    (JDict [("persons", JDict [("alice", JDict [])]);
            ("households",
             JDict [("h1", JDict [("adults", JList [JList [JStr "alice"]])])])]) []
  = (fetched, Raise (Py "TypeError" "unhashable type: 'list'")) /\
  get_entities plain_client [] = ([httpx.GET "/entities"], Return (JDict plain_entities)) /\
  handle_validate_situation plain_client
    (JDict [("persons", JDict [("alice", JDict [])]);
            ("households", JDict [("h1", JDict [])])]) []
  = (fetched, Raise (Py "KeyError" "'key'")).
Proof. repeat split. Qed.

(** Not every ill-shaped situation raises: a person whose body is an empty
    list has no variable to check, and a person whose body is a string has
    its characters checked as variables. *)
Example ill_shaped_person_bodies :
  validation_report sample_client (JDict [("persons", JDict [("alice", JList [])])]) []
  = (fetched, Return valid_report) /\
  validation_report sample_client (JDict [("persons", JDict [("alice", JStr "ab")])]) []
  = (fetched,
     Return (invalid_report ["Unknown variable 'a' for person 'alice'";
                             "Unknown variable 'b' for person 'alice'"])).
Proof. split; reflexivity. Qed.

(** The dispatcher turns that exception into an internal error. *)
Example non_mapping_instance_body_rendered :
  call_tool sample_client "validate_situation"
    [("situation", JDict [("persons", JDict [("alice", JInt 5)])])] []
  = (fetched,
     Return (format_error (mkMCPError "internal_error" "'int' object is not iterable"
                             500 [] []))).
Proof. reflexivity. Qed.

(** *** Persons *)


(** The same defect seen from the other side: under that schema a situation
    that does define an [individus] instance is told that no person is
    defined, and its reference to that instance is reported as dangling. *)
Example french_situation_report :
  validation_report french_client
    (JDict [("individus", JDict [("personne1", JDict [])]);
            ("menages",
             JDict [("m1", JDict [("personnes_de_reference",
                                   JList [JStr "personne1"])])])]) []
  = (fetched,
     Return (invalid_report
               ["At least one person must be defined";
                "Person 'personne1' in menages/m1/personnes_de_reference is not defined in persons"])).
Proof. reflexivity. Qed.




Example situation_without_persons_report :
  validation_report sample_client (JDict situation_without_persons) []
  = (fetched,
     Return (JDict [("valid", JBool false);
                    ("errors",
                     JList [JStr "At least one person must be defined";
                            JStr "Person 'alice' in households/h1/adults is not defined in persons"]);
                    ("warnings", JList [])])).
Proof. reflexivity. Qed.

(** *** Role assignments *)

Lemma existsb_eqb_In (k : string) (ks : list string) :
  In k ks -> existsb (String.eqb k) ks = true.
Proof.
  intros H. apply existsb_exists. exists k. split; [assumption|apply String.eqb_refl].
Qed.

Lemma names_role_test (rs : dict) (key : string) (plurals : list json) :
  names_role rs key -> role_plurals_of (JDict rs) = Return plurals ->
  existsb (String.eqb key) (keys rs) || existsb (py_eq (JStr key)) plurals = true.
Proof.
  intros [Hk|(Hd & r & Hr & Hp)] Hpl; apply orb_true_iff.
  - left. now apply existsb_eqb_In.
  - right. unfold role_plurals_of, py_values, rbind in Hpl. rewrite Hd in Hpl.
    destruct (for_each_In_split _ _ _ r Hpl Hr) as (pre & ys & post & Hbody & ->).
    unfold rbind in Hbody. rewrite Hp in Hbody. cbn in Hbody. injection Hbody as <-.
    rewrite !existsb_app. cbn [existsb py_eq]. rewrite String.eqb_refl.
    now rewrite orb_true_r.
Qed.

Lemma dangling_loop (ps : dict) (s : dict) (entity_plural : json)
    (instance_id key : string) (ids : list json) :
  persons_of s = JDict ps -> forallb hashable ids = true ->
  for_each (fun person_id =>
              rbind (py_contains person_id (JDict ps))
                (fun known =>
                   Return (if known then []
                           else [dangling_person person_id entity_plural
                                   instance_id key]))) ids
  = Return (map (fun person_id => dangling_person person_id entity_plural instance_id key)
              (filter (fun person_id => negb (defined_person s person_id)) ids)).
Proof.
  intros Hps Hids. rewrite <- flat_map_optional. apply for_each_pure.
  intros person_id Hin. unfold py_contains, rbind, defined_person.
  rewrite (forallb_In _ _ _ Hids Hin), Hps. unfold known.
  destruct person_id; reflexivity.
Qed.

(** C2 fails on a schema whose role descriptors hold [plural] and [max]
    but no [key]: the default [r["key"]] of [r.get("plural", r["key"])] is
    evaluated first, and the validator raises [KeyError] on the first instance
    of the group entity instead of reporting the dangling reference. *)
Theorem role_descriptor_without_key_raises :
  get_entities plain_client [] = ([httpx.GET "/entities"], Return (JDict plain_entities)) /\
  validation_report plain_client (JDict situation_with_dangling_reference) []
  = (fetched, Raise (Py "KeyError" "'key'")) /\
  call_tool plain_client "validate_situation"
    [("situation", JDict situation_with_dangling_reference)] []
  = (fetched, Return (format_error (mkMCPError "internal_error" "'key'" 500 [] []))).
Proof. repeat split. Qed.

(** With a [key] in every descriptor, the same situation gets its error. *)
Example dangling_reference_report :
  validation_report sample_client (JDict situation_with_dangling_reference) []
  = (fetched,
     Return (JDict [("valid", JBool false);
                    ("errors",
                     JList [JStr "Person 'bob' in households/h1/adults is not defined in persons"]);
                    ("warnings", JList [])])).
Proof. reflexivity. Qed.

(** * Further properties *)

(** ** The normalizer on every body *)

Lemma ValidationError_kind m d sg :
  error_type (ValidationError m d sg) = "validation_error" /\
  code (ValidationError m d sg) = 400%Z.
Proof. split; reflexivity. Qed.

(** X1.  On a mapping the normalizer always returns an error: a not_found
    error with code 404 only when the status is 404 and ["error"] is a
    string (which is then the message), a validation error with code 400 in
    every other case, whatever the status. *)
Theorem format_api_error_kinds (body : dict) (status_code : Z) :
  exists e,
    format_api_error (JDict body) status_code = Return e /\
    ((error_type e = "not_found_error" /\ code e = 404%Z /\ status_code = 404%Z /\
      lookup "error" body = Some (JStr (message e)))
     \/ (error_type e = "validation_error" /\ code e = 400%Z)).
Proof.
  assert (Hnested :
    exists e,
      match filter (fun kv => is_field_key (fst kv)) body with
      | [] => Return (ValidationError "API returned an error"
                        (Some [("raw_response", JDict body)]) None)
      | (first_path, first_message) :: _ =>
          Return (ValidationError
                    ("Validation error at " ++ first_path ++ ": "
                     ++ py_str first_message)
                    (Some [("field_errors",
                            JDict (filter (fun kv => is_field_key (fst kv)) body))])
                    (Some ["Check the field path and value format"]))
      end = Return e /\
      error_type e = "validation_error" /\ code e = 400%Z).
  { destruct (filter _ body) as [|[k v] rest]; eexists;
      (split; [reflexivity|apply ValidationError_kind]). }
  destruct Hnested as (e & He & Hkind).
  unfold format_api_error, py_contains, py_getitem, py_items, rbind. cbn [hashable].
  destruct (lookup "error" body) as [v|] eqn:Hl.
  - destruct v as [| | |X| |]; try (exists e; split; [exact He|right; exact Hkind]).
    destruct (status_code =? 404)%Z eqn:Hs.
    + apply Z.eqb_eq in Hs. eexists. split; [reflexivity|]. left. auto.
    + eexists. split; [reflexivity|]. right. split; reflexivity.
  - exists e. split; [exact He|right; exact Hkind].
Qed.

(** X2.  A mapping with no field key (no key other than ["error"]) whose
    ["error"] entry is not a string is the unknown format: the message is
    "API returned an error" and [details.raw_response] is the body. *)
Theorem format_api_error_unknown_format (body : dict) (status_code : Z)
    (Hkeys : forallb (fun kv => negb (is_field_key (fst kv))) body = true)
    (Herr : has_error_string body = false) :
  format_api_error (JDict body) status_code =
  Return (mkMCPError "validation_error" "API returned an error" 400
            [("raw_response", JDict body)] []).
Proof.
  assert (Hfilter : filter (fun kv => is_field_key (fst kv)) body = []).
  { clear Herr. induction body as [|kv body IH]; [reflexivity|].
    cbn [forallb filter] in *. apply andb_true_iff in Hkeys.
    destruct Hkeys as [Hk Hrest]. apply negb_true_iff in Hk. rewrite Hk. auto. }
  unfold has_error_string in Herr.
  unfold format_api_error, py_contains, py_getitem, py_items, rbind. cbn [hashable].
  destruct (lookup "error" body) as [v|].
  - destruct v; try discriminate Herr; rewrite Hfilter; reflexivity.
  - rewrite Hfilter. reflexivity.
Qed.

Lemma format_api_error_unknown_format_witness :
  format_api_error (JDict [("error", JDict [("code", JInt 7)])]) 500 =
  Return (mkMCPError "validation_error" "API returned an error" 400
            [("raw_response", JDict [("error", JDict [("code", JInt 7)])])] []).
Proof.
  exact (format_api_error_unknown_format [("error", JDict [("code", JInt 7)])] 500
           eq_refl eq_refl).
Defined.

(** X3.  On a body that is not a mapping the normalizer builds no error at
    all: it raises a Python exception itself. *)
Theorem format_api_error_non_mapping_raises (body : json) (status_code : Z)
    (H : is_dict body = false) :
  exists cls msg, format_api_error body status_code = Raise (Py cls msg).
Proof.
  unfold format_api_error, rbind.
  destruct body as [| | |s|l|d]; try discriminate H; cbn [py_contains].
  - do 2 eexists. reflexivity.
  - do 2 eexists. reflexivity.
  - do 2 eexists. reflexivity.
  - destruct (str_contains "error" s); do 2 eexists; reflexivity.
  - destruct (existsb (py_eq (JStr "error")) l); do 2 eexists; reflexivity.
Qed.

Lemma format_api_error_non_mapping_raises_witness :
  exists cls msg,
    format_api_error (JList [JStr "error"; JStr "not found"]) 404 = Raise (Py cls msg).
Proof.
  exact (format_api_error_non_mapping_raises (JList [JStr "error"; JStr "not found"])
           404 eq_refl).
Defined.

(** ** The client's reading of a response *)

(** X4.  A response is returned exactly when its status is below 400 and its
    body decodes; what is returned is the decoded body.  A status of 400 or
    more never returns. *)
Theorem handle_response_returns (response : httpx.Response) (data : json) :
  _handle_response response = Return data <->
  (httpx.status_code response < 400)%Z /\ httpx.json response = Return data.
Proof.
  unfold _handle_response.
  destruct (httpx.status_code response >=? 400)%Z eqn:Hs.
  - apply Z.geb_le in Hs. split.
    + unfold rbind. destruct (format_api_error _ _); discriminate.
    + intros [Hlt _]. lia.
  - split.
    + intros H. split; [|exact H].
      destruct (Z.geb_spec (httpx.status_code response) 400); [discriminate|lia].
    + intros [_ H]. exact H.
Qed.

(** X5.  A failure status whose body is not JSON is reported with the raw
    text as the message: not_found for 404, validation for any other
    status. *)
Theorem handle_response_text_body (response : httpx.Response) (e : exn)
    (Hs : (400 <= httpx.status_code response)%Z)
    (Hj : httpx.json response = Raise e) :
  _handle_response response =
  Raise (MCP (if (httpx.status_code response =? 404)%Z
              then mkMCPError "not_found_error" (httpx.text response) 404 [] []
              else mkMCPError "validation_error" (httpx.text response) 400 [] [])).
Proof.
  unfold _handle_response.
  destruct (Z.geb_spec (httpx.status_code response) 400) as [_|Hlt]; [|lia].
  rewrite Hj. unfold format_api_error, py_contains, py_getitem, rbind.
  cbn [hashable lookup String.eqb Ascii.eqb Bool.eqb].
  destruct (httpx.status_code response =? 404)%Z; reflexivity.
Qed.

Lemma handle_response_text_body_witness :
  _handle_response
    (httpx.mkResponse 502 "<html>Bad gateway</html>"
       (Raise (Py "JSONDecodeError" "Expecting value: line 1 column 1 (char 0)")))
  = Raise (MCP (mkMCPError "validation_error" "<html>Bad gateway</html>" 400 [] [])).
Proof.
  apply (handle_response_text_body
           (httpx.mkResponse 502 "<html>Bad gateway</html>"
              (Raise (Py "JSONDecodeError" "Expecting value: line 1 column 1 (char 0)")))
           (Py "JSONDecodeError" "Expecting value: line 1 column 1 (char 0)")).
  - cbn. lia.
  - reflexivity.
Defined.

(** ** Requests *)

Lemma perform_trace (self : OpenFiscaClient) (req : httpx.request)
    (tr : list httpx.request) :
  fst (perform self req tr) = (tr ++ [req])%list.
Proof.
  unfold perform, bind, send, lift, raise.
  destruct (transport self tr req); reflexivity.
Qed.

Lemma perform_answered (self : OpenFiscaClient) (req : httpx.request)
    (tr : list httpx.request) (response : httpx.Response) :
  transport self tr req = httpx.Answered response ->
  perform self req tr = ((tr ++ [req])%list, _handle_response response).
Proof.
  intros H. unfold perform, bind, send, lift. rewrite H. reflexivity.
Qed.

Lemma perform_unreachable (self : OpenFiscaClient) (cause : string)
    (req : httpx.request) (tr : list httpx.request) :
  (forall h r, transport self h r = httpx.ConnectError cause) ->
  perform self req tr = ((tr ++ [req])%list, Raise (MCP (connection_error self cause))).
Proof.
  intros H. unfold perform, bind, send, raise. rewrite H. reflexivity.
Qed.

Lemma handle_response_simple (response : httpx.Response) (body : dict) (X : string) :
  (400 <= httpx.status_code response)%Z ->
  httpx.json response = Return (JDict body) ->
  lookup "error" body = Some (JStr X) ->
  _handle_response response = Raise (MCP (simple_error (httpx.status_code response) X)).
Proof.
  intros Hs Hj Hl. unfold _handle_response.
  destruct (Z.geb_spec (httpx.status_code response) 400) as [_|Hlt]; [|lia].
  rewrite Hj. unfold format_api_error, py_contains, py_getitem, rbind, simple_error.
  cbn [hashable]. rewrite Hl.
  destruct (httpx.status_code response =? 404)%Z; reflexivity.
Qed.

(** X7.  How the layers compose on an unknown variable: when the engine
    answers [describe_variable]'s single request with a failure status and
    the body [{"error": X}], the caller gets the serialization of a not_found
    error (404) with message [X] if the status is 404, of a validation error
    (400) with message [X] otherwise. *)
Theorem describe_variable_upstream_error (client : OpenFiscaClient)
    (arguments : dict) (variable_name : json) (tr : list httpx.request)
    (response : httpx.Response) (body : dict) (X : string)
    (Harg : lookup "variable_name" arguments = Some variable_name)
    (Hans : transport client tr (httpx.GET ("/variable/" ++ py_str variable_name))
            = httpx.Answered response)
    (Hs : (400 <= httpx.status_code response)%Z)
    (Hj : httpx.json response = Return (JDict body))
    (Hl : lookup "error" body = Some (JStr X)) :
  call_tool client "describe_variable" arguments tr =
  ((tr ++ [httpx.GET ("/variable/" ++ py_str variable_name)])%list,
   Return (format_error (simple_error (httpx.status_code response) X))).
Proof.
  unfold call_tool, dispatch. cbn [String.eqb Ascii.eqb Bool.eqb].
  unfold argument, py_getitem, bind, lift. rewrite Harg.
  unfold handle_describe_variable, get_variable, bind.
  rewrite (perform_answered _ _ _ _ Hans), (handle_response_simple _ _ _ Hs Hj Hl).
  unfold simple_error. destruct (httpx.status_code response =? 404)%Z; reflexivity.
Qed.

Lemma describe_variable_upstream_error_witness :
  call_tool (mkClient "http://localhost:5000" unknown_variable_engine)
    "describe_variable" [("variable_name", JStr "nope")] [] =
  ([httpx.GET "/variable/nope"],
   Return (format_error (mkMCPError "not_found_error" "nope was not found" 404 [] []))).
Proof.
  exact (describe_variable_upstream_error
           (mkClient "http://localhost:5000" unknown_variable_engine)
           [("variable_name", JStr "nope")] (JStr "nope") []
           (httpx.mkResponse 404 "" (Return (JDict [("error", JStr "nope was not found")])))
           [("error", JStr "nope was not found")] "nope was not found"
           eq_refl eq_refl ltac:(cbn; lia) eq_refl eq_refl).
Defined.

(** X8.  A tool called without its required argument sends nothing: the
    [KeyError] of [arguments[...]] is rendered as an internal error with
    code 500, whose message is the quoted name of the argument. *)
Theorem missing_argument_is_internal_error (client : OpenFiscaClient)
    (name arg : string) (arguments : dict) (tr : list httpx.request)
    (Htool : In (name, arg) required_argument)
    (Hmissing : lookup arg arguments = None) :
  call_tool client name arguments tr =
  (tr, Return (format_error (mkMCPError "internal_error" (repr_str arg) 500 [] []))).
Proof.
  unfold required_argument in Htool. cbn [In] in Htool.
  repeat (destruct Htool as [Htool|Htool];
          [injection Htool as <- <-;
           unfold call_tool, dispatch; cbn [String.eqb Ascii.eqb Bool.eqb];
           unfold argument, py_getitem, bind, lift; rewrite Hmissing; reflexivity|]).
  contradiction.
Qed.

Lemma missing_argument_is_internal_error_witness :
  call_tool sample_client "calculate" [("situatoin", JDict valid_situation)] [] =
  ([], Return (format_error (mkMCPError "internal_error" "'situation'" 500 [] []))).
Proof.
  apply (missing_argument_is_internal_error sample_client "calculate" "situation"
           [("situatoin", JDict valid_situation)] []).
  - cbn. tauto.
  - reflexivity.
Defined.

Lemma falsy_situation_rejected_witness :
  handle_calculate sample_client JNull [] = ([], Raise situation_required) /\
  handle_trace_calculation sample_client JNull [] = ([], Raise situation_required) /\
  handle_validate_situation sample_client JNull [] = ([], Raise situation_required).
Proof.
  exact (falsy_situation_rejected sample_client JNull [] eq_refl).
Defined.

(** X10.  The validator is a structural check: whatever the situation and
    whatever the engine answers, it sends at most two requests, [GET
    /entities] and then [GET /variables], and never posts the situation. *)
Theorem validate_situation_requests (client : OpenFiscaClient) (situation : json)
    (tr : list httpx.request) :
  exists sent,
    fst (handle_validate_situation client situation tr) = (tr ++ sent)%list /\
    (sent = [] \/ sent = [httpx.GET "/entities"]
     \/ sent = [httpx.GET "/entities"; httpx.GET "/variables"]).
Proof.
  unfold handle_validate_situation, validation_report.
  destruct (truthy situation); cbn [negb].
  2:{ exists []. split; [now rewrite app_nil_r|auto]. }
  unfold bind at 1 2. unfold get_entities.
  pose proof (perform_trace client (httpx.GET "/entities") tr) as He.
  destruct (perform client (httpx.GET "/entities") tr) as [tr1 [entities|e]];
    cbn [fst] in He; subst tr1.
  2:{ exists [httpx.GET "/entities"]. auto. }
  unfold bind, lift.
  destruct (valid_entity_plurals entities) as [valid|e].
  2:{ exists [httpx.GET "/entities"]. auto. }
  destruct (check_top_level_keys situation valid) as [key_errors|e].
  2:{ exists [httpx.GET "/entities"]. auto. }
  destruct (py_get situation (JStr "persons") (JDict [])) as [persons|e].
  2:{ exists [httpx.GET "/entities"]. auto. }
  unfold get_variables.
  pose proof (perform_trace client (httpx.GET "/variables")
                (tr ++ [httpx.GET "/entities"])%list) as Ha.
  destruct (perform client (httpx.GET "/variables") (tr ++ [httpx.GET "/entities"])%list)
    as [tr2 [all_vars|e]]; cbn [fst] in Ha; subst tr2;
    exists [httpx.GET "/entities"; httpx.GET "/variables"];
    (split; [|auto]).
  - destruct (check_person_variables persons all_vars);
      [destruct (check_group_entities entities situation persons all_vars)|];
      cbn [fst ret]; now rewrite <- app_assoc.
  - cbn [fst]. now rewrite <- app_assoc.
Qed.

(** X11.  [calculate] and [trace_calculation] pass the situation through:
    for a situation that is not false, the only request is the post of the
    situation itself, unchanged and unvalidated, and a success answer is
    rendered as it came. *)
Theorem situation_is_posted_unchanged (client : OpenFiscaClient)
    (handler : json -> io (list TextContent)) (path : string) (situation data : json)
    (tr : list httpx.request) (response : httpx.Response)
    (Hh : In (handler, path) (posting_handlers client))
    (Ht : truthy situation = true)
    (Hans : transport client tr (httpx.POST path situation) = httpx.Answered response)
    (Hs : (httpx.status_code response < 400)%Z)
    (Hj : httpx.json response = Return data) :
  handler situation tr
  = ((tr ++ [httpx.POST path situation])%list, Return (format_result data)).
Proof.
  assert (Hr : _handle_response response = Return data).
  { unfold _handle_response.
    destruct (Z.geb_spec (httpx.status_code response) 400); [lia|exact Hj]. }
  destruct Hh as [Hh|[Hh|[]]]; injection Hh as <- <-.
  - unfold handle_calculate, calculate, bind, ret. rewrite Ht. cbn [negb].
    now rewrite (perform_answered _ _ _ _ Hans), Hr.
  - unfold handle_trace_calculation, trace, bind, ret. rewrite Ht. cbn [negb].
    now rewrite (perform_answered _ _ _ _ Hans), Hr.
Qed.

Lemma situation_is_posted_unchanged_witness :
  handle_calculate (mkClient "http://localhost:5000" echo_engine)
    (JDict valid_situation) []
  = ([httpx.POST "/calculate" (JDict valid_situation)],
     Return (format_result (JDict valid_situation))).
Proof.
  apply (situation_is_posted_unchanged (mkClient "http://localhost:5000" echo_engine)
           (handle_calculate (mkClient "http://localhost:5000" echo_engine))
           "/calculate" (JDict valid_situation) (JDict valid_situation) []
           (httpx.mkResponse 200 "" (Return (JDict valid_situation)))).
  - left. reflexivity.
  - reflexivity.
  - reflexivity.
  - cbn. lia.
  - reflexivity.
Defined.

Lemma call_tool_rendering (client : OpenFiscaClient) (name : string)
    (arguments : dict) (tr : list httpx.request) :
  call_tool client name arguments tr = rendering (dispatch client name arguments tr).
Proof. reflexivity. Qed.

(** X12.  When the engine cannot be reached at all, no tool call succeeds
    and none retries: every call ends in one error payload, either built
    before any request (the trace is unchanged), or the connection error
    (503) after exactly one request. *)
Theorem unreachable_engine_outcome (client : OpenFiscaClient) (cause : string)
    (name : string) (arguments : dict) (tr : list httpx.request)
    (Hdown : forall h r, transport client h r = httpx.ConnectError cause) :
  exists e tr',
    call_tool client name arguments tr = (tr', Return (format_error e)) /\
    (tr' = tr \/
     exists req, tr' = (tr ++ [req])%list /\ e = connection_error client cause).
Proof.
  rewrite call_tool_rendering.
  set (Q := fun out : list httpx.request * result (list TextContent) =>
              exists e tr',
                rendering out = (tr', Return (format_error e)) /\
                (tr' = tr \/
                 exists req, tr' = (tr ++ [req])%list /\
                             e = connection_error client cause)).
  change (Q (dispatch client name arguments tr)).
  assert (Hfail : forall (req : httpx.request) (k : json -> io (list TextContent)),
             Q (bind (perform client req) k tr)).
  { intros req k. unfold bind. rewrite (perform_unreachable _ cause _ _ Hdown).
    do 2 eexists. split; [reflexivity|]. right. eauto. }
  assert (Hearly : forall e : exn, Q (tr, Raise e)).
  { intros [e|cls msg]; do 2 eexists; (split; [reflexivity|left; reflexivity]). }
  assert (Harg : forall (arg : string) (h : json -> io (list TextContent)),
             (forall v, Q (h v tr)) -> Q (bind (argument arguments arg) h tr)).
  { intros arg h Hh. unfold argument, py_getitem, bind, lift.
    destruct (lookup arg arguments); [apply Hh|apply Hearly]. }
  assert (Hguard : forall (s : json) (req : httpx.request)
                          (k : json -> io (list TextContent)),
             Q ((if negb (truthy s) then raise situation_required
                 else bind (perform client req) k) tr)).
  { intros s req k. destruct (truthy s); cbn [negb]; [apply Hfail|apply Hearly]. }
  unfold dispatch.
  destruct (String.eqb name "list_entities"); [apply Hfail|].
  destruct (String.eqb name "list_variables"); [apply Hfail|].
  destruct (String.eqb name "describe_variable");
    [apply Harg; intros v; apply Hfail|].
  destruct (String.eqb name "list_parameters"); [apply Hfail|].
  destruct (String.eqb name "get_parameter");
    [apply Harg; intros v; apply Hfail|].
  destruct (String.eqb name "search_variables");
    [apply Harg; intros v; apply Hfail|].
  destruct (String.eqb name "calculate");
    [apply Harg; intros s; apply Hguard|].
  destruct (String.eqb name "trace_calculation");
    [apply Harg; intros s; apply Hguard|].
  destruct (String.eqb name "validate_situation"); [|apply Hearly].
  apply Harg. intros s.
  unfold handle_validate_situation, validation_report.
  destruct (truthy s); cbn [negb].
  - unfold bind at 1 2. unfold get_entities.
    rewrite (perform_unreachable _ cause _ _ Hdown).
    do 2 eexists. split; [reflexivity|]. right. eauto.
  - apply Hearly.
Qed.

Lemma unreachable_engine_outcome_witness :
  exists e tr',
    call_tool (mkClient "http://localhost:5000" unreachable) "list_entities" [] []
    = (tr', Return (format_error e)) /\
    (tr' = [] \/
     exists req, tr' = ([] ++ [req])%list /\
       e = connection_error (mkClient "http://localhost:5000" unreachable)
             "[Errno 111] Connection refused").
Proof.
  exact (unreachable_engine_outcome (mkClient "http://localhost:5000" unreachable)
           "[Errno 111] Connection refused" "list_entities" [] []
           (fun _ _ => eq_refl)).
Defined.

(** ** Listing and searching variables *)

Lemma In_dict_set (k : string) (v : json) (d : dict) (kv : string * json) :
  In kv (dict_set k v d) -> kv = (k, v) \/ In kv d.
Proof.
  induction d as [|[k' v'] d IH]; cbn [dict_set].
  - intros [H|[]]. now left.
  - destruct (String.eqb k k').
    + intros [H|H]; [now left|right; now right].
    + intros [H|H]; [right; now left|].
      destruct (IH H) as [H'|H']; [now left|right; now right].
Qed.

Lemma dict_set_fresh (k : string) (v : json) (d : dict) :
  ~ In k (keys d) -> dict_set k v d = (d ++ [(k, v)])%list.
Proof.
  induction d as [|[k' v'] d IH]; cbn [dict_set keys map fst In app]; [reflexivity|].
  intros H. destruct (String.eqb_spec k k') as [->|_].
  - exfalso. apply H. now left.
  - rewrite IH; [reflexivity|]. intros Hin. apply H. now right.
Qed.

(** The detail check of one variable sends one request, whatever comes
    back. *)
Lemma detail_check_trace (client : OpenFiscaClient) (var_name : string)
    (test : json -> bool) (tr : list httpx.request) :
  fst (bind (get_variable client (JStr var_name))
         (fun details =>
            bind (lift (py_get details (JStr "entity") JNull))
              (fun e => ret (test e))) tr)
  = (tr ++ [variable_request var_name])%list.
Proof.
  unfold bind, get_variable, lift, ret. cbn [py_str].
  pose proof (perform_trace client (httpx.GET ("/variable/" ++ var_name)) tr) as H.
  destruct (perform client (httpx.GET ("/variable/" ++ var_name)) tr) as [tr1 [details|e]];
    cbn [fst] in H; subst tr1; [|reflexivity].
  destruct (py_get details (JStr "entity") JNull); reflexivity.
Qed.

Lemma detail_check_true (client : OpenFiscaClient) (entity : json) (var_name : string)
    (negate : bool) (tr tr' : list httpx.request) :
  bind (get_variable client (JStr var_name))
    (fun details =>
       bind (lift (py_get details (JStr "entity") JNull))
         (fun e => ret (xorb negate (py_eq e entity)))) tr
  = (tr', Return (negb negate)) ->
  entity_confirmed client entity var_name.
Proof.
  unfold bind, lift, ret. intros H.
  destruct (get_variable client (JStr var_name) tr) as [tr1 [details|e]] eqn:Hd;
    [|discriminate H].
  destruct (py_get details (JStr "entity") JNull) as [e|e] eqn:He; [|discriminate H].
  exists tr, tr1, details, e. repeat split; try assumption.
  injection H as _ H. destruct negate, (py_eq e entity); try discriminate H; reflexivity.
Qed.

Lemma filter_by_entity_spec (client : OpenFiscaClient) (entity : json) (items : dict) :
  forall (filtered : dict) (tr : list httpx.request),
  exists out,
    filter_by_entity client entity items filtered tr
    = ((tr ++ map (fun kv => variable_request (fst kv)) items)%list, Return out) /\
    forall kv, In kv out ->
      In kv filtered \/ (In kv items /\ entity_confirmed client entity (fst kv)).
Proof.
  induction items as [|[var_name var_info] items IH]; intros filtered tr.
  - exists filtered. cbn. rewrite app_nil_r. auto.
  - cbn [filter_by_entity map fst]. unfold bind at 1, try_except.
    pose proof (detail_check_trace client var_name (fun e => py_eq e entity) tr) as Htr.
    pose proof (detail_check_true client entity var_name false tr) as Hok.
    cbn [xorb negb] in Hok.
    destruct (bind (get_variable client (JStr var_name)) _ tr) as [tr1 r] eqn:Hcheck.
    cbn [fst] in Htr. subst tr1.
    assert (Hstep : forall acc,
               (forall kv, In kv acc ->
                  In kv filtered \/
                  (In kv ((var_name, var_info) :: items) /\
                   entity_confirmed client entity (fst kv))) ->
               exists out,
                 filter_by_entity client entity items acc
                   (tr ++ [variable_request var_name])%list
                 = ((tr ++ variable_request var_name
                        :: map (fun kv => variable_request (fst kv)) items)%list,
                    Return out) /\
                 forall kv, In kv out ->
                   In kv filtered \/
                   (In kv ((var_name, var_info) :: items) /\
                    entity_confirmed client entity (fst kv))).
    { intros acc Hacc.
      destruct (IH acc (tr ++ [variable_request var_name])%list) as (out & Hout & Hin).
      exists out. split.
      - rewrite Hout. now rewrite <- app_assoc.
      - intros kv Hkv. destruct (Hin kv Hkv) as [H|[H Hc]].
        + now apply Hacc.
        + right. split; [now right|exact Hc]. }
    destruct r as [[|]|e].
    + apply Hstep. intros kv Hkv. destruct (In_dict_set _ _ _ _ Hkv) as [->|H].
      * right. split; [now left|]. now apply (Hok _ eq_refl).
      * now left.
    + apply Hstep. auto.
    + apply Hstep. auto.
Qed.

(** X13.  Filtering the listing by entity is best effort: once the listing
    is fetched, the call always returns.  It asks for the detail of every
    listed variable, once each and in listing order, whatever the answers,
    and keeps only entries of the listing whose detail the engine answered
    with that entity. *)
Theorem list_variables_by_entity (client : OpenFiscaClient) (entity : json)
    (data : dict) (tr tr1 : list httpx.request)
    (He : truthy entity = true)
    (Hl : get_variables client tr = (tr1, Return (JDict data))) :
  exists filtered,
    handle_list_variables client entity tr
    = ((tr1 ++ map (fun kv => variable_request (fst kv)) data)%list,
       Return (format_result (JDict filtered))) /\
    forall kv, In kv filtered ->
      In kv data /\ entity_confirmed client entity (fst kv).
Proof.
  destruct (filter_by_entity_spec client entity data [] tr1) as (filtered & Hf & Hin).
  exists filtered. split.
  - unfold handle_list_variables, bind at 1. rewrite Hl, He.
    unfold bind, lift, ret. cbn [py_items]. now rewrite Hf.
  - intros kv Hkv. destruct (Hin kv Hkv) as [[]|H]. exact H.
Qed.

Lemma list_variables_by_entity_witness :
  exists filtered,
    handle_list_variables detail_client (JStr "person") []
    = (([httpx.GET "/variables"]
        ++ map (fun kv => variable_request (fst kv)) sample_variable_list)%list,
       Return (format_result (JDict filtered))) /\
    forall kv, In kv filtered ->
      In kv sample_variable_list /\
      entity_confirmed detail_client (JStr "person") (fst kv).
Proof.
  exact (list_variables_by_entity detail_client (JStr "person") sample_variable_list
           [] [httpx.GET "/variables"] eq_refl eq_refl).
Defined.

Example list_variables_by_entity_run :
  handle_list_variables detail_client (JStr "person") []
  = ([httpx.GET "/variables"; httpx.GET "/variable/salary";
      httpx.GET "/variable/income_tax"],
     Return (format_result (JDict [("salary", JDict [("description", JStr "Salary")])]))).
Proof. reflexivity. Qed.

Lemma summary_read (query_lower : string) (var_info : json)
    (k : string -> io dict) (tr : list httpx.request) :
  summary_ok var_info = true ->
  bind (lift (py_get var_info (JStr "description") (JStr "")))
    (fun description =>
       bind (lift (py_lower description)) (fun description_lower => k description_lower))
    tr
  = k (str_lower (description_of var_info)) tr.
Proof.
  destruct var_info as [| | | |l|d]; try discriminate.
  cbn [summary_ok description_of]. unfold bind, lift, py_get. cbn [hashable].
  destruct (lookup "description" d) as [[| | |s| |]|]; try discriminate; reflexivity.
Qed.

Lemma search_loop_unfiltered (client : OpenFiscaClient) (query_lower : string)
    (entity : json) (items : dict) :
  truthy entity = false ->
  forallb summary_ok (values items) = true ->
  forall (acc : dict) (tr : list httpx.request),
    NoDup (keys acc ++ keys items) ->
    search_loop client query_lower entity items acc tr
    = (tr, Return (acc ++ filter (matches_query query_lower) items)%list).
Proof.
  intros He. induction items as [|[var_name var_info] items IH]; intros Hok acc tr Hnd.
  - cbn. now rewrite app_nil_r.
  - cbn [values map snd forallb] in Hok. apply andb_true_iff in Hok.
    destruct Hok as [Hinfo Hok].
    cbn [search_loop]. rewrite (summary_read query_lower var_info _ tr Hinfo).
    cbn [filter].
    change (str_contains query_lower (str_lower var_name)
            || str_contains query_lower (str_lower (description_of var_info)))
      with (matches_query query_lower (var_name, var_info)).
    cbn [keys map fst] in Hnd.
    destruct (matches_query query_lower (var_name, var_info)).
    + rewrite He. rewrite dict_set_fresh.
      * rewrite IH; [rewrite <- app_assoc; reflexivity|exact Hok|].
        unfold keys in *. rewrite map_app, <- app_assoc. exact Hnd.
      * apply NoDup_remove_2 in Hnd. intros Hin. apply Hnd.
        apply in_or_app. now left.
    + apply IH; [exact Hok|]. now apply NoDup_remove_1 in Hnd.
Qed.

(** X14.  Without entity filter, a search over a well-formed listing sends
    the listing request only and returns exactly the variables whose
    lower-cased name or description contains the lower-cased query, in
    listing order; when there is none it returns the message "No variables
    found matching '<query>'" with its two suggestions instead of an empty
    mapping. *)
Theorem search_variables_unfiltered (client : OpenFiscaClient) (query : string)
    (entity : json) (data : dict) (tr tr1 : list httpx.request)
    (He : truthy entity = false)
    (Hl : get_variables client tr = (tr1, Return (JDict data)))
    (Hnd : NoDup (keys data))
    (Hok : forallb summary_ok (values data) = true) :
  handle_search_variables client (JStr query) entity tr
  = (tr1,
     Return (format_result
               (search_payload query
                  (filter (matches_query (str_lower query)) data)))).
Proof.
  unfold handle_search_variables, bind at 1. rewrite Hl.
  unfold bind at 1 2, lift. cbn [py_lower py_items].
  unfold bind at 1.
  rewrite (search_loop_unfiltered client _ entity data He Hok [] tr1 Hnd).
  cbn [app]. unfold search_payload, no_match. cbn [py_str].
  destruct (filter _ data); reflexivity.
Qed.

Lemma search_variables_unfiltered_witness :
  handle_search_variables detail_client (JStr "TAX") JNull []
  = ([httpx.GET "/variables"],
     Return (format_result
               (search_payload "TAX"
                  (filter (matches_query (str_lower "TAX")) sample_variable_list)))).
Proof.
  apply (search_variables_unfiltered detail_client "TAX" JNull sample_variable_list
           [] [httpx.GET "/variables"]).
  - reflexivity.
  - reflexivity.
  - repeat constructor; cbn; intuition discriminate.
  - reflexivity.
Defined.

Example search_variables_run :
  handle_search_variables detail_client (JStr "TAX") JNull []
  = ([httpx.GET "/variables"],
     Return (format_result
               (JDict [("income_tax", JDict [("description", JStr "Income tax")])]))).
Proof. reflexivity. Qed.

Lemma search_loop_filtered (client : OpenFiscaClient) (query_lower : string)
    (entity : json) (items : dict) :
  truthy entity = true ->
  forallb summary_ok (values items) = true ->
  forall (acc : dict) (tr : list httpx.request),
  exists out,
    search_loop client query_lower entity items acc tr
    = ((tr ++ map (fun kv => variable_request (fst kv))
               (filter (matches_query query_lower) items))%list,
       Return out) /\
    forall kv, In kv out ->
      In kv acc \/
      (In kv items /\ matches_query query_lower kv = true /\
       entity_confirmed client entity (fst kv)).
Proof.
  intros He. induction items as [|[var_name var_info] items IH]; intros Hok acc tr.
  - exists acc. cbn. rewrite app_nil_r. auto.
  - cbn [values map snd forallb] in Hok. apply andb_true_iff in Hok.
    destruct Hok as [Hinfo Hok].
    cbn [search_loop]. rewrite (summary_read query_lower var_info _ tr Hinfo).
    cbn [filter].
    change (str_contains query_lower (str_lower var_name)
            || str_contains query_lower (str_lower (description_of var_info)))
      with (matches_query query_lower (var_name, var_info)).
    destruct (matches_query query_lower (var_name, var_info)) eqn:Hmatch.
    + rewrite He. unfold bind at 1, try_except.
      pose proof (detail_check_trace client var_name
                    (fun e => negb (py_eq e entity)) tr) as Htr.
      pose proof (detail_check_true client entity var_name true tr) as Hconf.
      cbn [xorb negb] in Hconf.
      destruct (bind (get_variable client (JStr var_name)) _ tr) as [tr1 r] eqn:Hcheck.
      cbn [fst] in Htr. subst tr1.
      assert (Hstep : forall acc',
                 (forall kv, In kv acc' ->
                    In kv acc \/
                    (In kv ((var_name, var_info) :: items) /\
                     matches_query query_lower kv = true /\
                     entity_confirmed client entity (fst kv))) ->
                 exists out,
                   search_loop client query_lower entity items acc'
                     (tr ++ [variable_request var_name])%list
                   = ((tr ++ map (fun kv => variable_request (fst kv))
                              ((var_name, var_info)
                               :: filter (matches_query query_lower) items))%list,
                      Return out) /\
                   forall kv, In kv out ->
                     In kv acc \/
                     (In kv ((var_name, var_info) :: items) /\
                      matches_query query_lower kv = true /\
                      entity_confirmed client entity (fst kv))).
      { intros acc' Hacc.
        destruct (IH Hok acc' (tr ++ [variable_request var_name])%list)
          as (out & Hout & Hin).
        exists out. split.
        - rewrite Hout. cbn [map fst]. now rewrite <- app_assoc.
        - intros kv Hkv. destruct (Hin kv Hkv) as [H|(H & Hm & Hc)].
          + now apply Hacc.
          + right. split; [now right|]. split; assumption. }
      destruct r as [[|]|e].
      * apply Hstep. auto.
      * apply Hstep. intros kv Hkv. destruct (In_dict_set _ _ _ _ Hkv) as [->|H].
        -- right. split; [now left|]. split; [exact Hmatch|].
           now apply (Hconf _ eq_refl).
        -- now left.
      * apply Hstep. auto.
    + destruct (IH Hok acc tr) as (out & Hout & Hin).
      exists out. split; [exact Hout|].
      intros kv Hkv. destruct (Hin kv Hkv) as [H|(H & Hm & Hc)]; [now left|].
      right. split; [now right|]. split; assumption.
Qed.

(** X15.  With an entity filter, a search over a well-formed listing asks
    for the detail of the text matches only, once each and in listing order,
    and always returns; every variable it returns is in the listing, matches
    the query, and had its detail answered with that entity. *)
Theorem search_variables_filtered (client : OpenFiscaClient) (query : string)
    (entity : json) (data : dict) (tr tr1 : list httpx.request)
    (He : truthy entity = true)
    (Hl : get_variables client tr = (tr1, Return (JDict data)))
    (Hok : forallb summary_ok (values data) = true) :
  exists matches,
    handle_search_variables client (JStr query) entity tr
    = ((tr1 ++ map (fun kv => variable_request (fst kv))
               (filter (matches_query (str_lower query)) data))%list,
       Return (format_result (search_payload query matches))) /\
    forall kv, In kv matches ->
      In kv data /\ matches_query (str_lower query) kv = true /\
      entity_confirmed client entity (fst kv).
Proof.
  destruct (search_loop_filtered client (str_lower query) entity data He Hok [] tr1)
    as (matches & Hm & Hin).
  exists matches. split.
  - unfold handle_search_variables, bind at 1. rewrite Hl.
    unfold bind at 1 2, lift. cbn [py_lower py_items].
    unfold bind at 1. rewrite Hm.
    unfold search_payload, no_match. cbn [py_str].
    destruct matches; reflexivity.
  - intros kv Hkv. destruct (Hin kv Hkv) as [[]|H]. exact H.
Qed.

Lemma search_variables_filtered_witness :
  exists matches,
    handle_search_variables detail_client (JStr "a") (JStr "person") []
    = (([httpx.GET "/variables"]
        ++ map (fun kv => variable_request (fst kv))
               (filter (matches_query (str_lower "a")) sample_variable_list))%list,
       Return (format_result (search_payload "a" matches))) /\
    forall kv, In kv matches ->
      In kv sample_variable_list /\ matches_query (str_lower "a") kv = true /\
      entity_confirmed detail_client (JStr "person") (fst kv).
Proof.
  exact (search_variables_filtered detail_client "a" (JStr "person")
           sample_variable_list [] [httpx.GET "/variables"] eq_refl eq_refl eq_refl).
Defined.

(** The handler, one step at a time. *)
Lemma search_outcome (client : OpenFiscaClient) (query : string) (entity : json)
    (tr : list httpx.request) :
  handle_search_variables client (JStr query) entity tr =
  match get_variables client tr with
  | (tr1, Return all_vars) =>
      match py_items all_vars with
      | Return items =>
          match search_loop client (str_lower query) entity items [] tr1 with
          | (tr2, Return matches) =>
              (tr2, Return (format_result (search_payload query matches)))
          | (tr2, Raise e) => (tr2, Raise e)
          end
      | Raise e => (tr1, Raise e)
      end
  | (tr1, Raise e) => (tr1, Raise e)
  end.
Proof.
  unfold handle_search_variables, bind, lift, ret. cbn [py_lower py_str].
  destruct (get_variables client tr) as [tr1 [all_vars|e]]; [|reflexivity].
  destruct (py_items all_vars) as [items|e]; [|reflexivity].
  destruct (search_loop client (str_lower query) entity items [] tr1)
    as [tr2 [[|m ms]|e]]; reflexivity.
Qed.

(** X16.  The search is blind to the case of the query: two queries with
    the same lower-case form send the same requests and get the same
    matches; they differ only in the message of a search without result,
    which quotes the query as typed. *)
Theorem search_ignores_query_case (client : OpenFiscaClient) (q1 q2 : string)
    (entity : json) (tr : list httpx.request)
    (Hq : str_lower q1 = str_lower q2) :
  fst (handle_search_variables client (JStr q1) entity tr)
  = fst (handle_search_variables client (JStr q2) entity tr) /\
  (snd (handle_search_variables client (JStr q1) entity tr)
   = snd (handle_search_variables client (JStr q2) entity tr)
   \/ (snd (handle_search_variables client (JStr q1) entity tr)
       = Return (format_result (no_match q1)) /\
       snd (handle_search_variables client (JStr q2) entity tr)
       = Return (format_result (no_match q2)))).
Proof.
  rewrite !search_outcome, Hq.
  destruct (get_variables client tr) as [tr1 [all_vars|e]]; [|auto].
  destruct (py_items all_vars) as [items|e]; [|auto].
  destruct (search_loop client (str_lower q2) entity items [] tr1)
    as [tr2 [[|m ms]|e]]; cbn [fst snd search_payload]; auto.
Qed.

Lemma search_ignores_query_case_witness :
  fst (handle_search_variables detail_client (JStr "Salary") JNull [])
  = fst (handle_search_variables detail_client (JStr "SALARY") JNull []) /\
  (snd (handle_search_variables detail_client (JStr "Salary") JNull [])
   = snd (handle_search_variables detail_client (JStr "SALARY") JNull [])
   \/ (snd (handle_search_variables detail_client (JStr "Salary") JNull [])
       = Return (format_result (no_match "Salary")) /\
       snd (handle_search_variables detail_client (JStr "SALARY") JNull [])
       = Return (format_result (no_match "SALARY")))).
Proof.
  exact (search_ignores_query_case detail_client "Salary" "SALARY" JNull [] eq_refl).
Defined.

(** ** More on the situation validator *)

Lemma for_each_map {A B C : Type} (body : B -> result (list C)) (g : A -> B)
    (l : list A) :
  for_each body (map g l) = for_each (fun x => body (g x)) l.
Proof.
  induction l as [|x l IH]; cbn [map for_each]; [reflexivity|]. now rewrite IH.
Qed.

Lemma for_each_ext {A B : Type} (f g : A -> result (list B)) (l : list A) :
  (forall x, In x l -> f x = g x) -> for_each f l = for_each g l.
Proof.
  induction l as [|x l IH]; intros H; cbn [for_each]; [reflexivity|].
  rewrite (H x (or_introl eq_refl)), IH; [reflexivity|].
  intros y Hy. apply H. now right.
Qed.

Lemma for_each_nil_inv {A B : Type} (body : A -> result (list B)) (l : list A)
    (x : A) :
  for_each body l = Return [] -> In x l -> body x = Return [].
Proof.
  intros H Hin.
  destruct (for_each_In_split _ _ _ _ H Hin) as (pre & ys & post & Hx & Hnil).
  symmetry in Hnil. apply app_eq_nil in Hnil. destruct Hnil as [_ Hnil].
  apply app_eq_nil in Hnil. destruct Hnil as [-> _]. exact Hx.
Qed.

Lemma for_each_In_inv {A B : Type} (body : A -> result (list B)) (l : list A)
    (zs : list B) (z : B) :
  for_each body l = Return zs -> In z zs ->
  exists x ys, In x l /\ body x = Return ys /\ In z ys.
Proof.
  revert zs. induction l as [|a l IH]; intros zs H Hz; cbn [for_each] in H.
  - injection H as <-. contradiction.
  - destruct (body a) as [ys|e] eqn:Ha; [|discriminate].
    destruct (for_each body l) as [zs'|e] eqn:Hl; [|discriminate].
    injection H as <-. apply in_app_or in Hz. destruct Hz as [Hz|Hz].
    + exists a, ys. split; [now left|auto].
    + destruct (IH zs' eq_refl Hz) as (x & ys' & Hx & Hb & Hin).
      exists x, ys'. split; [now right|auto].
Qed.

(** The test the validator makes on a key of a group instance is the
    test [names_role]. *)
Lemma names_role_test_false (rs : dict) (key : string) (plurals : list json) :
  role_plurals_of (JDict rs) = Return plurals -> ~ names_role rs key ->
  existsb (String.eqb key) (keys rs) || existsb (py_eq (JStr key)) plurals = false.
Proof.
  intros Hpl Hno. apply orb_false_iff. split.
  - apply not_true_is_false. intros H. apply existsb_exists in H.
    destruct H as (k & Hin & Hk). apply String.eqb_eq in Hk. subst k.
    apply Hno. now left.
  - apply not_true_is_false. intros H. apply existsb_exists in H.
    destruct H as (p & Hin & Hp).
    assert (p = JStr key) as ->.
    { destruct p; try discriminate Hp. cbn in Hp. apply String.eqb_eq in Hp.
      now subst. }
    unfold role_plurals_of, py_values, rbind in Hpl.
    destruct (is_dict (hd (JDict []) (values rs))) eqn:Hd.
    + destruct (for_each_In_inv _ _ _ _ Hpl Hin) as (r & ys & Hr & Hbody & Hy).
      apply Hno. right. split; [exact Hd|]. exists r. split; [exact Hr|].
      unfold rbind in Hbody. destruct (role_plural r) as [p|e]; [|discriminate].
      destruct (hashable p); [|discriminate].
      injection Hbody as <-. destruct Hy as [->|[]]. reflexivity.
    + injection Hpl as <-. contradiction.
Qed.

Lemma variable_loop (vars : dict) (person_id : string) (body : dict) :
  for_each (fun var_name =>
              rbind (py_contains var_name (JDict vars))
                (fun known =>
                   Return (if known then []
                           else [unknown_person_variable var_name person_id])))
           (map JStr (keys body))
  = Return (map (fun var => unknown_person_variable (JStr var) person_id)
              (filter (fun var => negb (known vars var)) (keys body))).
Proof.
  rewrite for_each_map, <- flat_map_optional. apply for_each_pure.
  intros var _. reflexivity.
Qed.

Example unknown_variables_report :
  validation_report sample_client (JDict situation_with_unknown_variables) []
  = (fetched,
     Return (JDict [("valid", JBool false);
                    ("errors",
                     JList [JStr "Unknown variable 'wage' for person 'alice'";
                            JStr "Unknown variable 'rent' for households 'h1'"]);
                    ("warnings", JList [])])).
Proof. reflexivity. Qed.

(** Where the check of one entry of a group instance sits in the errors of
    the group check. *)
Lemma group_entry_inv (es s : dict) (persons all_vars : json)
    (group_errors : list string) (entity_key p instance_id : string)
    (d rs instances entries : dict) (entry : string * json) :
  check_group_entities (JDict es) (JDict s) persons all_vars = Return group_errors ->
  In (entity_key, JDict d) es ->
  lookup "roles" d = Some (JDict rs) -> lookup "plural" d = Some (JStr p) ->
  lookup p s = Some (JDict instances) ->
  In (instance_id, JDict entries) instances ->
  In entry entries ->
  exists plurals pre ys post,
    role_plurals_of (JDict rs) = Return plurals /\
    check_instance_entry persons all_vars (JStr p) instance_id (keys rs) plurals entry
    = Return ys /\
    group_errors = (pre ++ ys ++ post)%list.
Proof.
  intros Hg Hent Hroles Hplural Hsection Hinst Hentry.
  unfold check_group_entities, py_items, rbind in Hg.
  destruct (for_each_In_split _ _ _ _ Hg Hent) as (pre1 & ys1 & post1 & H1 & ->).
  unfold check_entity, py_contains, py_getitem, py_get, rbind in H1.
  cbn [hashable] in H1. rewrite Hroles, Hplural, Hsection in H1.
  cbn [negb py_items] in H1.
  destruct (for_each_In_split _ _ _ _ H1 Hinst) as (pre2 & ys2 & post2 & H2 & ->).
  unfold check_instance, py_getitem, rbind in H2. rewrite Hroles in H2.
  cbn [py_keys] in H2.
  destruct (role_plurals_of (JDict rs)) as [plurals|e]; [|discriminate H2].
  cbn [py_items] in H2.
  destruct (for_each_In_split _ _ _ _ H2 Hentry) as (pre3 & ys3 & post3 & H3 & ->).
  exists plurals, (pre1 ++ pre2 ++ pre3)%list, ys3, (post3 ++ post2 ++ post1)%list.
  split; [reflexivity|]. split; [exact H3|].
  repeat rewrite <- app_assoc. reflexivity.
Qed.

Lemma verdict_valid_inv (errors : list string) :
  verdict errors [] = valid_report -> errors = [].
Proof. destruct errors; [reflexivity|discriminate]. Qed.

Lemma contains_true_inv (x container : json) (m : string) :
  rbind (py_contains x container)
    (fun known => Return (if known then [] else [m])) = Return [] ->
  py_contains x container = Return true.
Proof.
  unfold rbind. destruct (py_contains x container) as [[|]|e]; try discriminate.
  reflexivity.
Qed.

(** X20.  What "valid" means: when the validator answers
    [{valid: true, ...}], every top-level key of the situation is the key or
    the plural of an entity; there is at least one person; every variable of
    a person is a key of the variables; and in every instance of a group
    entity, every id in a list-valued role entry is a key of [persons], and
    every other entry is a key of the variables. *)
Theorem valid_report_sound (client : OpenFiscaClient) (s es : dict)
    (all_vars : json) (tr tr1 tr2 : list httpx.request)
    (Hr : validation_report client (JDict s) tr = (tr2, Return valid_report))
    (He : get_entities client tr = (tr1, Return (JDict es)))
    (Ha : get_variables client tr1 = (tr2, Return all_vars)) :
  (forall k, In k (keys s) -> accepts es k) /\
  (exists person ps, persons_of s = JDict (person :: ps)) /\
  (forall ps person_id body var,
     persons_of s = JDict ps -> In (person_id, JDict body) ps -> In var (keys body) ->
     py_contains (JStr var) all_vars = Return true) /\
  (forall entity_key d rs p instances instance_id entries key value,
     In (entity_key, JDict d) es ->
     lookup "roles" d = Some (JDict rs) -> lookup "plural" d = Some (JStr p) ->
     lookup p s = Some (JDict instances) ->
     In (instance_id, JDict entries) instances ->
     In (key, value) entries ->
     (names_role rs key ->
      forall ids person_id, value = JList ids -> In person_id ids ->
        defined_person s person_id = true) /\
     (~ names_role rs key -> py_contains (JStr key) all_vars = Return true)).
Proof.
  destruct (validation_report_inv _ _ _ _ _ Hr)
    as (s' & entities' & valid & key_errors & all_vars' & variable_errors
        & group_errors & tr1' & Hs' & _ & He' & Hvalid & Hk & Ha' & Hpv & Hg & Hreport).
  injection Hs' as <-.
  rewrite He in He'. injection He' as <- <-.
  rewrite Ha in Ha'. injection Ha' as <-.
  symmetry in Hreport. apply verdict_valid_inv in Hreport.
  apply app_eq_nil in Hreport. destruct Hreport as [-> Hreport].
  apply app_eq_nil in Hreport. destruct Hreport as [Hperson Hreport].
  apply app_eq_nil in Hreport. destruct Hreport as [-> ->].
  destruct (valid_entity_plurals_inv _ _ Hvalid) as (es' & Hes & Hacc).
  injection Hes as <-.
  assert (Hps : exists ps, persons_of s = JDict ps).
  { unfold check_person_variables, rbind in Hpv.
    destruct (persons_of s); try discriminate Hpv. eauto. }
  destruct Hps as [ps Hps].
  split; [|split; [|split]].
  - intros k Hin. apply accepted_accepts.
    rewrite check_top_level_keys_dict in Hk. injection Hk as Hk.
    apply map_eq_nil in Hk.
    destruct (accepted es k) eqn:Hak; [reflexivity|exfalso].
    match type of Hk with
    | filter ?f _ = [] => assert (Hf : In k (filter f (keys s)))
    end.
    { apply filter_In. split; [exact Hin|].
      change (negb (existsb (py_eq (JStr k)) valid) = true). now rewrite Hacc, Hak. }
    rewrite Hk in Hf. contradiction.
  - rewrite Hps in Hperson |- *.
    destruct ps as [|person ps]; [discriminate Hperson|].
    exists person, ps. reflexivity.
  - intros ps' person_id body var Hps' Hp Hvar.
    rewrite Hps in Hps'. injection Hps' as <-. rewrite Hps in Hpv.
    unfold check_person_variables, py_items, rbind in Hpv.
    pose proof (for_each_nil_inv _ _ _ Hpv Hp) as Hbody. cbn [py_iter] in Hbody.
    assert (Hin : In (JStr var) (map JStr (keys body))) by now apply in_map.
    pose proof (for_each_nil_inv _ _ _ Hbody Hin) as Hone. cbn beta in Hone.
    destruct (py_contains (JStr var) all_vars) as [[|]|e]; try discriminate Hone.
    reflexivity.
  - intros entity_key d rs p instances instance_id entries key value
      Hent Hroles Hplural Hsection Hinst Hentry.
    destruct (group_entry_inv _ _ _ _ _ _ _ _ _ _ _ _ _ Hg Hent Hroles Hplural
                Hsection Hinst Hentry)
      as (plurals & pre & ys & post & Hpl & Hcheck & Hnil).
    symmetry in Hnil. apply app_eq_nil in Hnil. destruct Hnil as [_ Hnil].
    apply app_eq_nil in Hnil. destruct Hnil as [-> _].
    unfold check_instance_entry in Hcheck. split.
    + intros Hrole ids person_id -> Hid.
      rewrite (names_role_test _ _ _ Hrole Hpl) in Hcheck.
      pose proof (for_each_nil_inv _ _ _ Hcheck Hid) as Hone. cbn beta in Hone.
      apply contains_true_inv in Hone. rewrite Hps in Hone.
      unfold defined_person, known. rewrite Hps.
      unfold py_contains in Hone. destruct (hashable person_id); [|discriminate Hone].
      destruct person_id; try discriminate Hone.
      injection Hone as Hone. exact Hone.
    + intros Hrole. rewrite (names_role_test_false _ _ _ Hpl Hrole) in Hcheck.
      now apply contains_true_inv in Hcheck.
Qed.

Lemma valid_report_sound_witness :
  (forall k, In k (keys valid_situation) -> accepts sample_entities k) /\
  (exists person ps, persons_of valid_situation = JDict (person :: ps)) /\
  (forall ps person_id body var,
     persons_of valid_situation = JDict ps -> In (person_id, JDict body) ps ->
     In var (keys body) ->
     py_contains (JStr var) sample_variables = Return true) /\
  (forall entity_key d rs p instances instance_id entries key value,
     In (entity_key, JDict d) sample_entities ->
     lookup "roles" d = Some (JDict rs) -> lookup "plural" d = Some (JStr p) ->
     lookup p valid_situation = Some (JDict instances) ->
     In (instance_id, JDict entries) instances ->
     In (key, value) entries ->
     (names_role rs key ->
      forall ids person_id, value = JList ids -> In person_id ids ->
        defined_person valid_situation person_id = true) /\
     (~ names_role rs key -> py_contains (JStr key) sample_variables = Return true)).
Proof.
  exact (valid_report_sound sample_client valid_situation sample_entities
           sample_variables [] [httpx.GET "/entities"] fetched
           eq_refl eq_refl eq_refl).
Defined.

Lemma truthy_keys (s s' : dict) : keys s = keys s' -> truthy (JDict s) = truthy (JDict s').
Proof. destruct s, s'; try discriminate; reflexivity. Qed.

Lemma check_entity_frame (s s' : dict) (persons all_vars : json)
    (entity : string * json) :
  (forall d p, snd entity = JDict d -> lookup "roles" d <> None ->
     lookup "plural" d = Some (JStr p) -> lookup p s = lookup p s') ->
  check_entity (JDict s) persons all_vars entity
  = check_entity (JDict s') persons all_vars entity.
Proof.
  destruct entity as [entity_key entity_info]. cbn [snd]. intros H.
  unfold check_entity, rbind.
  destruct (py_contains (JStr "roles") entity_info) as [[|]|e] eqn:Hc;
    cbn [negb]; try reflexivity.
  destruct (py_getitem entity_info "plural") as [p|e] eqn:Hp; [|reflexivity].
  destruct entity_info as [| | | |l|d]; try discriminate Hp.
  cbn in Hc, Hp.
  destruct (lookup "plural" d) as [p'|] eqn:Hpl; [|discriminate Hp].
  injection Hp as ->.
  unfold py_get. destruct (hashable p); [|reflexivity].
  destruct p; try reflexivity.
  rewrite (H d s0 eq_refl); [reflexivity| |exact Hpl].
  destruct (lookup "roles" d); [discriminate|discriminate Hc].
Qed.

(** X21.  What the validator never looks at: the report depends on the
    situation only through its top-level keys, its ["persons"] section and
    the sections named by the plural of a group entity.  Whatever sits under
    any other key, such as an entity's singular key, does not change the
    report. *)
Theorem uninspected_sections (client : OpenFiscaClient) (s s' es : dict)
    (tr tr1 : list httpx.request)
    (He : get_entities client tr = (tr1, Return (JDict es)))
    (Hkeys : keys s = keys s')
    (Hpersons : lookup "persons" s = lookup "persons" s')
    (Hgroups : forall entity_key d p,
        In (entity_key, JDict d) es -> lookup "roles" d <> None ->
        lookup "plural" d = Some (JStr p) -> lookup p s = lookup p s') :
  validation_report client (JDict s) tr = validation_report client (JDict s') tr.
Proof.
  unfold validation_report. rewrite (truthy_keys _ _ Hkeys).
  destruct (truthy (JDict s')); cbn [negb]; [|reflexivity].
  unfold bind, lift. rewrite He.
  destruct (valid_entity_plurals (JDict es)) as [valid|e]; [|reflexivity].
  rewrite !check_top_level_keys_dict, Hkeys. cbn [py_get hashable]. rewrite Hpersons.
  destruct (get_variables client tr1) as [tr2 [all_vars|e]]; [|reflexivity].
  destruct (check_person_variables _ all_vars) as [variable_errors|e]; [|reflexivity].
  assert (Hg : forall persons,
             check_group_entities (JDict es) (JDict s) persons all_vars
             = check_group_entities (JDict es) (JDict s') persons all_vars).
  { intros persons. unfold check_group_entities, py_items, rbind.
    apply for_each_ext. intros [entity_key entity_info] Hin.
    apply check_entity_frame. cbn [snd]. intros d p -> Hr Hp.
    exact (Hgroups entity_key d p Hin Hr Hp). }
  now rewrite Hg.
Qed.

Lemma uninspected_sections_witness :
  validation_report sample_client (JDict situation_with_singular_key) []
  = validation_report sample_client
      (JDict [("persons", JDict [("alice", JDict [])]); ("household", JNull)]) [].
Proof.
  apply (uninspected_sections sample_client situation_with_singular_key
           [("persons", JDict [("alice", JDict [])]); ("household", JNull)]
           sample_entities [] [httpx.GET "/entities"]).
  - reflexivity.
  - reflexivity.
  - reflexivity.
  - intros entity_key d p [H|[H|[]]] Hr Hp.
    + injection H as _ <-. cbn in Hr. contradiction.
    + injection H as _ <-. cbn in Hp. injection Hp as <-. reflexivity.
Defined.

Example singular_key_report :
  validation_report sample_client (JDict situation_with_singular_key) []
  = (fetched, Return valid_report).
Proof. reflexivity. Qed.

(** ** The whole report of a well-shaped situation *)

Lemma check_person_variables_expected (ps vars : dict) :
  forallb is_dict (values ps) = true ->
  check_person_variables (JDict ps) (JDict vars)
  = Return (flat_map (person_errors vars) ps).
Proof.
  intros Hbodies. unfold check_person_variables, py_items, rbind.
  apply for_each_pure. intros [person_id person_data] Hin.
  pose proof (forallb_In _ _ _ Hbodies (In_values _ _ _ Hin)) as Hd.
  destruct person_data as [| | | |l|body]; try discriminate Hd.
  cbn [py_iter person_errors].
  pose proof (variable_loop vars person_id body) as Hloop.
  unfold rbind in Hloop. exact Hloop.
Qed.

(** The names the validator reads from readable descriptors are the names
    [role_name] gives. *)
Lemma role_plurals_loop (key : string) (l : list json) (plurals : list json) :
  forallb role_ok l = true ->
  for_each (fun r => rbind (role_plural r)
                       (fun p => if hashable p then Return [p]
                                 else Raise (unhashable p))) l
  = Return plurals ->
  existsb (py_eq (JStr key)) plurals
  = existsb (fun r => match role_name r with
                      | Some (JStr p) => String.eqb key p
                      | _ => false
                      end) l.
Proof.
  revert plurals. induction l as [|r l IH]; intros plurals Hok H; cbn [for_each] in H.
  - injection H as <-. reflexivity.
  - cbn [forallb] in Hok. apply andb_true_iff in Hok. destruct Hok as [Hr Hl].
    destruct (for_each _ l) as [rest|e] eqn:Hrest.
    + destruct r as [| | | |x|d]; try discriminate Hr.
      cbn [role_ok] in Hr. unfold role_plural, py_getitem, py_get, rbind in H.
      cbn [role_name existsb].
      destruct (lookup "key" d) as [k|]; [|discriminate Hr].
      cbn [hashable] in H.
      destruct (lookup "plural" d) as [p|]; rewrite Hr in H; injection H as <-;
        cbn [app existsb]; rewrite (IH rest Hl eq_refl); reflexivity.
    + destruct (rbind (role_plural r) _); discriminate H.
Qed.

Lemma is_role_test (rs : dict) (key : string) (plurals : list json) :
  roles_ok (JDict rs) = true -> role_plurals_of (JDict rs) = Return plurals ->
  existsb (String.eqb key) (keys rs) || existsb (py_eq (JStr key)) plurals
  = is_role rs key.
Proof.
  intros Hok Hpl. unfold is_role. f_equal.
  cbn [roles_ok] in Hok. unfold role_plurals_of, py_values, rbind in Hpl.
  destruct (is_dict (hd (JDict []) (values rs))); cbn [andb].
  - exact (role_plurals_loop key _ _ Hok Hpl).
  - injection Hpl as <-. reflexivity.
Qed.

Lemma check_instance_entry_expected (s ps vars rs : dict) (p instance_id : string)
    (plurals : list json) (entry : string * json) :
  persons_of s = JDict ps ->
  roles_ok (JDict rs) = true -> role_plurals_of (JDict rs) = Return plurals ->
  match snd entry with JList ids => forallb hashable ids | _ => true end = true ->
  check_instance_entry (JDict ps) (JDict vars) (JStr p) instance_id (keys rs) plurals
    entry
  = Return (entry_errors s vars p instance_id rs entry).
Proof.
  intros Hps Hok Hpl Hids. destruct entry as [key value]. cbn [snd] in Hids.
  unfold check_instance_entry, entry_errors.
  rewrite (is_role_test rs key plurals Hok Hpl).
  destruct (is_role rs key).
  - destruct value as [| | | |ids|x]; try reflexivity.
    exact (dangling_loop ps s (JStr p) instance_id key ids Hps Hids).
  - unfold py_contains, rbind, known. cbn [hashable].
    destruct (lookup key vars); reflexivity.
Qed.

Lemma check_instance_expected (s ps vars d rs : dict) (p : string)
    (instance : string * json) :
  persons_of s = JDict ps ->
  lookup "roles" d = Some (JDict rs) -> roles_ok (JDict rs) = true ->
  group_body_ok (snd instance) = true ->
  check_instance (JDict ps) (JDict vars) (JDict d) (JStr p) instance
  = Return (instance_errors s vars p rs instance).
Proof.
  intros Hps Hroles Hok Hbody. destruct instance as [instance_id body].
  cbn [snd] in Hbody.
  destruct body as [| | | |l|entries]; try discriminate Hbody.
  destruct (role_plurals_of_total _ Hok) as [plurals Hpl].
  unfold check_instance, py_getitem, rbind. rewrite Hroles. cbn [py_keys].
  rewrite Hpl. cbn [py_items instance_errors].
  apply for_each_pure. intros entry Hin.
  apply (check_instance_entry_expected s ps vars rs p instance_id plurals entry Hps Hok Hpl).
  cbn [group_body_ok] in Hbody.
  destruct entry as [key value].
  exact (forallb_In _ _ _ Hbody (In_values _ _ _ Hin)).
Qed.

Lemma check_entity_expected (s ps vars : dict) (entity : string * json) :
  persons_of s = JDict ps ->
  entity_ok (snd entity) = true -> group_section_ok s (snd entity) = true ->
  check_entity (JDict s) (JDict ps) (JDict vars) entity
  = Return (entity_errors s vars entity).
Proof.
  intros Hps Hok Hsec. destruct entity as [entity_key entity_info]. cbn [snd] in *.
  destruct (entity_ok_inv entity_info Hok) as (d & p & -> & Hp).
  unfold check_entity, entity_errors, py_contains, py_getitem, py_get, rbind.
  cbn [hashable snd group_section_ok] in *. rewrite Hp in *.
  destruct (lookup "roles" d) as [roles|] eqn:Hr; cbn [negb]; [|reflexivity].
  destruct (lookup p s) as [section|].
  - destruct section as [| | | |l|[|i instances]];
      try (apply andb_true_iff in Hsec; destruct Hsec as [_ Hsec]; discriminate Hsec).
    + destruct roles; reflexivity.
    + apply andb_true_iff in Hsec. destruct Hsec as [Hroles Hbodies].
      destruct (roles_ok_inv roles Hroles) as (rs & -> & _).
      cbn [py_items instances_ok] in *.
      apply for_each_pure. intros instance Hin.
      apply (check_instance_expected s ps vars d rs p instance Hps Hr Hroles).
      destruct instance as [instance_id body].
      exact (forallb_In _ _ _ Hbodies (In_values _ _ _ Hin)).
  - destruct roles; reflexivity.
Qed.

Lemma check_group_entities_expected (es s ps vars : dict) :
  persons_of s = JDict ps ->
  forallb entity_ok (values es) = true ->
  forallb (group_section_ok s) (values es) = true ->
  check_group_entities (JDict es) (JDict s) (JDict ps) (JDict vars)
  = Return (group_errors_of es vars s).
Proof.
  intros Hps Hok Hsec. unfold check_group_entities, py_items, rbind, group_errors_of.
  apply for_each_pure. intros [entity_key entity_info] Hin.
  apply (check_entity_expected s ps vars (entity_key, entity_info) Hps).
  - exact (forallb_In _ _ _ Hok (In_values _ _ _ Hin)).
  - exact (forallb_In _ _ _ Hsec (In_values _ _ _ Hin)).
Qed.

(** On a well-shaped situation the report is the one the situation is owed:
    the errors of the four checks, in the order of the checks. *)
Lemma validation_report_expected (client : OpenFiscaClient) (s es vars : dict)
    (tr tr1 tr2 : list httpx.request) :
  truthy (JDict s) = true ->
  well_shaped (JDict es) (JDict vars) (JDict s) = true ->
  get_entities client tr = (tr1, Return (JDict es)) ->
  get_variables client tr1 = (tr2, Return (JDict vars)) ->
  validation_report client (JDict s) tr
  = (tr2,
     Return (report_for (key_errors_of es s ++ missing_person_error s
                         ++ variable_errors_of vars s ++ group_errors_of es vars s))).
Proof.
  intros Ht Hw He Ha.
  unfold well_shaped in Hw. apply andb_true_iff in Hw. destruct Hw as [Hw Hsit].
  apply andb_true_iff in Hw. destruct Hw as [Hes _].
  cbn [entities_ok situation_ok] in *.
  apply andb_true_iff in Hsit. destruct Hsit as [Hpersons Hgroups].
  assert (Hps : exists ps, persons_of s = JDict ps /\ forallb is_dict (values ps) = true).
  { unfold persons_of. destruct (lookup "persons" s) as [persons|]; [|exists []; auto].
    destruct persons; try discriminate Hpersons. eauto. }
  destruct Hps as (ps & Hps & Hbodies).
  destruct (valid_entity_plurals_total es Hes) as [valid Hvalid].
  destruct (valid_entity_plurals_inv _ _ Hvalid) as (es' & Hes' & Hacc).
  injection Hes' as <-.
  unfold validation_report. rewrite Ht. cbn [negb].
  unfold bind, lift, ret.
  rewrite He, Hvalid, check_top_level_keys_dict. cbn [py_get hashable].
  fold (persons_of s).
  rewrite Ha, Hps, (check_person_variables_expected ps vars Hbodies),
    (check_group_entities_expected es s ps vars Hps Hes Hgroups).
  rewrite verdict_report_for.
  rewrite (filter_ext _ (fun k => negb (accepted es k)))
    by (intros k; now rewrite Hacc).
  unfold key_errors_of, missing_person_error, variable_errors_of. rewrite Hps.
  destruct ps; reflexivity.
Qed.

Lemma flat_map_split {A B : Type} (f : A -> list B) (l1 l2 : list A) (x : A) :
  flat_map f (l1 ++ x :: l2) = (flat_map f l1 ++ f x ++ flat_map f l2)%list.
Proof. rewrite flat_map_app. reflexivity. Qed.

(** X22.  On a well-shaped situation the report is fixed by the situation and
    the schema: its errors are the errors on the top-level keys, then the
    missing-person error if any, then the errors on the variables of the
    persons, then the errors of the group entities, each list in the order of
    the situation (for the group entities: entities in schema order, their
    instances and entries in situation order); the report is
    [{valid: true, ...}] exactly when all four lists are empty. *)
Theorem errors_in_check_order (client : OpenFiscaClient) (s es vars : dict)
    (tr tr1 tr2 : list httpx.request)
    (Hs : truthy (JDict s) = true)
    (Hw : well_shaped (JDict es) (JDict vars) (JDict s) = true)
    (He : get_entities client tr = (tr1, Return (JDict es)))
    (Ha : get_variables client tr1 = (tr2, Return (JDict vars))) :
  validation_report client (JDict s) tr
  = (tr2,
     Return (match (key_errors_of es s ++ missing_person_error s
                    ++ variable_errors_of vars s ++ group_errors_of es vars s)%list with
             | [] => JDict [("valid", JBool true);
                            ("message", JStr "Situation is valid");
                            ("warnings", JList [])]
             | errors => JDict [("valid", JBool false);
                                ("errors", JList (map JStr errors));
                                ("warnings", JList [])]
             end)).
Proof.
  rewrite (validation_report_expected client s es vars tr tr1 tr2 Hs Hw He Ha).
  unfold report_for.
  destruct (key_errors_of es s ++ missing_person_error s
            ++ variable_errors_of vars s ++ group_errors_of es vars s)%list;
    reflexivity.
Qed.

Lemma errors_in_check_order_witness :
  validation_report sample_client
    (JDict [("companies", JDict []);
            ("persons", JDict [("alice", JDict [("wage", JDict [])])]);
            ("households", JDict [("h1", JDict [("adults", JList [JStr "bob"]);
                                                 ("rent", JDict [])])])]) []
  = (fetched,
     Return (JDict [("valid", JBool false);
                    ("errors",
                     JList [JStr "Unknown entity type: 'companies'";
                            JStr "Unknown variable 'wage' for person 'alice'";
                            JStr "Person 'bob' in households/h1/adults is not defined in persons";
                            JStr "Unknown variable 'rent' for households 'h1'"]);
                    ("warnings", JList [])])) /\
  validation_report sample_client
    (JDict [("households", JDict [("h1", JDict [("rent", JDict [])])]);
            ("companies", JDict [])]) []
  = (fetched,
     Return (JDict [("valid", JBool false);
                    ("errors",
                     JList [JStr "Unknown entity type: 'companies'";
                            JStr "At least one person must be defined";
                            JStr "Unknown variable 'rent' for households 'h1'"]);
                    ("warnings", JList [])])).
Proof.
  split.
  - exact (errors_in_check_order sample_client
             [("companies", JDict []);
              ("persons", JDict [("alice", JDict [("wage", JDict [])])]);
              ("households", JDict [("h1", JDict [("adults", JList [JStr "bob"]);
                                                   ("rent", JDict [])])])]
             sample_entities sample_variable_list [] [httpx.GET "/entities"] fetched
             eq_refl eq_refl eq_refl eq_refl).
  - exact (errors_in_check_order sample_client
             [("households", JDict [("h1", JDict [("rent", JDict [])])]);
              ("companies", JDict [])]
             sample_entities sample_variable_list [] [httpx.GET "/entities"] fetched
             eq_refl eq_refl eq_refl eq_refl).
Defined.

(** X18.  On a well-shaped situation every person contributes one block to
    the report, at the person's place among the persons: one
    "Unknown variable '<var>' for person '<id>'" per key of the person that
    is not a key of the variables, in key order, and nothing for the other
    keys. *)
Theorem unknown_person_variables_reported (client : OpenFiscaClient)
    (s es vars before after body : dict) (tr tr1 tr2 : list httpx.request)
    (person_id : string)
    (Hs : truthy (JDict s) = true)
    (Hw : well_shaped (JDict es) (JDict vars) (JDict s) = true)
    (He : get_entities client tr = (tr1, Return (JDict es)))
    (Ha : get_variables client tr1 = (tr2, Return (JDict vars)))
    (Hps : lookup "persons" s
           = Some (JDict (before ++ (person_id, JDict body) :: after))) :
  validation_report client (JDict s) tr
  = (tr2,
     Return (report_for
               (key_errors_of es s
                ++ flat_map (person_errors vars) before
                ++ map (fun var =>
                          ("Unknown variable '" ++ var ++ "' for person '"
                           ++ person_id ++ "'")%string)
                       (filter (fun var => negb (known vars var)) (keys body))
                ++ flat_map (person_errors vars) after
                ++ group_errors_of es vars s)%list)).
Proof.
  rewrite (validation_report_expected client s es vars tr tr1 tr2 Hs Hw He Ha).
  unfold missing_person_error, variable_errors_of, persons_of. rewrite Hps.
  rewrite flat_map_split. cbn [person_errors].
  destruct before; cbn [app]; repeat rewrite <- app_assoc; reflexivity.
Qed.

Lemma unknown_person_variables_reported_witness :
  validation_report sample_client
    (JDict [("persons",
             JDict [("alice", JDict [("wage", JDict [])]);
                    ("bob", JDict [("bonus", JDict []); ("salary", JDict []);
                                   ("age", JDict [])]);
                    ("carol", JDict [("pension", JDict [])])])]) []
  = (fetched,
     Return (JDict [("valid", JBool false);
                    ("errors",
                     JList [JStr "Unknown variable 'wage' for person 'alice'";
                            JStr "Unknown variable 'bonus' for person 'bob'";
                            JStr "Unknown variable 'age' for person 'bob'";
                            JStr "Unknown variable 'pension' for person 'carol'"]);
                    ("warnings", JList [])])).
Proof.
  exact (unknown_person_variables_reported sample_client
           [("persons",
             JDict [("alice", JDict [("wage", JDict [])]);
                    ("bob", JDict [("bonus", JDict []); ("salary", JDict []);
                                   ("age", JDict [])]);
                    ("carol", JDict [("pension", JDict [])])])]
           sample_entities sample_variable_list
           [("alice", JDict [("wage", JDict [])])]
           [("carol", JDict [("pension", JDict [])])]
           [("bonus", JDict []); ("salary", JDict []); ("age", JDict [])]
           [] [httpx.GET "/entities"] fetched "bob"
           eq_refl eq_refl eq_refl eq_refl eq_refl).
Defined.

(** Where the errors of one entry of a group instance sit in the errors of
    the group entities. *)
Lemma group_errors_at (s vars es1 es2 d rs i1 i2 e1 e2 : dict)
    (entity_key p instance_id : string) (entry : string * json) :
  lookup "roles" d = Some (JDict rs) -> lookup "plural" d = Some (JStr p) ->
  lookup p s = Some (JDict (i1 ++ (instance_id, JDict (e1 ++ entry :: e2)) :: i2)) ->
  group_errors_of (es1 ++ (entity_key, JDict d) :: es2)%list vars s
  = (group_errors_of es1 vars s
     ++ flat_map (instance_errors s vars p rs) i1
     ++ flat_map (entry_errors s vars p instance_id rs) e1
     ++ entry_errors s vars p instance_id rs entry
     ++ flat_map (entry_errors s vars p instance_id rs) e2
     ++ flat_map (instance_errors s vars p rs) i2
     ++ group_errors_of es2 vars s)%list.
Proof.
  intros Hroles Hplural Hsection. unfold group_errors_of.
  rewrite flat_map_split. unfold entity_errors at 2. cbn [snd].
  rewrite Hroles, Hplural, Hsection, flat_map_split.
  cbn [instance_errors]. rewrite flat_map_split.
  repeat rewrite <- app_assoc. reflexivity.
Qed.



(** X19.  On a well-shaped situation an entry of a group instance whose key
    names no role is checked as a variable: at the place of the entry the
    report holds "Unknown variable '<key>' for <plural> '<instance>'" when
    the key is not a key of the variables, and nothing when it is. *)
Theorem unknown_group_variables_reported (client : OpenFiscaClient) (s vars : dict)
    (tr tr1 tr2 : list httpx.request) (entity_key p instance_id key : string)
    (d rs es1 es2 i1 i2 e1 e2 : dict) (value : json)
    (Hs : truthy (JDict s) = true)
    (Hw : well_shaped (JDict (es1 ++ (entity_key, JDict d) :: es2)) (JDict vars)
            (JDict s) = true)
    (He : get_entities client tr
          = (tr1, Return (JDict (es1 ++ (entity_key, JDict d) :: es2))))
    (Ha : get_variables client tr1 = (tr2, Return (JDict vars)))
    (Hroles : lookup "roles" d = Some (JDict rs))
    (Hplural : lookup "plural" d = Some (JStr p))
    (Hsection : lookup p s
                = Some (JDict (i1 ++ (instance_id,
                                      JDict (e1 ++ (key, value) :: e2)) :: i2)))
    (Hrole : is_role rs key = false) :
  validation_report client (JDict s) tr
  = (tr2,
     Return (report_for
               (key_errors_of (es1 ++ (entity_key, JDict d) :: es2)%list s
                ++ missing_person_error s
                ++ variable_errors_of vars s
                ++ group_errors_of es1 vars s
                ++ flat_map (instance_errors s vars p rs) i1
                ++ flat_map (entry_errors s vars p instance_id rs) e1
                ++ (if known vars key then []
                    else [("Unknown variable '" ++ key ++ "' for " ++ p ++ " '"
                           ++ instance_id ++ "'")%string])
                ++ flat_map (entry_errors s vars p instance_id rs) e2
                ++ flat_map (instance_errors s vars p rs) i2
                ++ group_errors_of es2 vars s)%list)).
Proof.
  rewrite (validation_report_expected client s _ vars tr tr1 tr2 Hs Hw He Ha).
  rewrite (group_errors_at s vars es1 es2 d rs i1 i2 e1 e2 entity_key p instance_id
             (key, value) Hroles Hplural Hsection).
  cbn [entry_errors]. rewrite Hrole. reflexivity.
Qed.

Lemma unknown_group_variables_reported_witness :
  validation_report sample_client
    (JDict [("persons", JDict [("alice", JDict [])]);
            ("households",
             JDict [("h1", JDict [("adults", JList [JStr "alice"]);
                                  ("rent", JDict [])]);
                    ("h2", JDict [("surface", JDict [])])])]) []
  = (fetched,
     Return (JDict [("valid", JBool false);
                    ("errors",
                     JList [JStr "Unknown variable 'rent' for households 'h1'";
                            JStr "Unknown variable 'surface' for households 'h2'"]);
                    ("warnings", JList [])])) /\
  validation_report sample_client
    (JDict [("persons", JDict [("alice", JDict [])]);
            ("households",
             JDict [("h1", JDict [("adults", JList [JStr "alice"]);
                                  ("income_tax", JDict [])]);
                    ("h2", JDict [("surface", JDict [])])])]) []
  = (fetched,
     Return (JDict [("valid", JBool false);
                    ("errors",
                     JList [JStr "Unknown variable 'surface' for households 'h2'"]);
                    ("warnings", JList [])])).
Proof.
  split.
  - exact (unknown_group_variables_reported sample_client
             [("persons", JDict [("alice", JDict [])]);
              ("households",
               JDict [("h1", JDict [("adults", JList [JStr "alice"]);
                                    ("rent", JDict [])]);
                      ("h2", JDict [("surface", JDict [])])])]
             sample_variable_list [] [httpx.GET "/entities"] fetched
             "household" "households" "h1" "rent" household_info household_roles
             [("person", JDict [("plural", JStr "persons")])] []
             [] [("h2", JDict [("surface", JDict [])])]
             [("adults", JList [JStr "alice"])] []
             (JDict [])
             eq_refl eq_refl eq_refl eq_refl eq_refl eq_refl eq_refl eq_refl).
  - exact (unknown_group_variables_reported sample_client
             [("persons", JDict [("alice", JDict [])]);
              ("households",
               JDict [("h1", JDict [("adults", JList [JStr "alice"]);
                                    ("income_tax", JDict [])]);
                      ("h2", JDict [("surface", JDict [])])])]
             sample_variable_list [] [httpx.GET "/entities"] fetched
             "household" "households" "h1" "income_tax" household_info household_roles
             [("person", JDict [("plural", JStr "persons")])] []
             [] [("h2", JDict [("surface", JDict [])])]
             [("adults", JList [JStr "alice"])] []
             (JDict [])
             eq_refl eq_refl eq_refl eq_refl eq_refl eq_refl eq_refl eq_refl).
Defined.

(** ** Transport failures and the connection handle *)

(** X23.  Only [httpx.ConnectError] becomes a connection error: any other
    transport failure (a timeout, say) leaves the operation as it is, after
    the one request, and the dispatcher renders it as an internal error
    (500) with the failure's message. *)
Theorem other_transport_failure_propagates (self : OpenFiscaClient)
    (op : operation) (arguments : dict) (tr : list httpx.request) (cls msg : string) :
  (transport self tr (request_of op) = httpx.OtherError cls msg ->
   run self op tr = ((tr ++ [request_of op])%list, Raise (Py cls msg))) /\
  (transport self tr (httpx.GET "/entities") = httpx.OtherError cls msg ->
   call_tool self "list_entities" arguments tr
   = ((tr ++ [httpx.GET "/entities"])%list,
      Return (format_error (mkMCPError "internal_error" msg 500 [] [])))).
Proof.
  split; intros H.
  - rewrite run_perform. unfold perform, bind, send, raise. now rewrite H.
  - unfold call_tool, dispatch. cbn [String.eqb Ascii.eqb Bool.eqb].
    unfold handle_list_entities, get_entities, perform, bind, send, raise.
    now rewrite H.
Qed.

Lemma live_app {T : Type} (evs evs' : list (handle_event T)) (open : list nat) :
  live (evs ++ evs') open = live evs' (live evs open).
Proof.
  revert open. induction evs as [|[h b t|h] evs IH]; intros open; cbn [app live];
    [reflexivity| |]; apply IH.
Qed.

(** X24.  The handle is never leaked and never doubled: after any sequence
    of uses and closes of a new client, the open handles are exactly the one
    the object holds, if it holds one; so at most one connection is open at
    any time, and none after a [close]. *)
Theorem one_handle_at_most {T : Type} (base_url : string) (timeout : T)
    (calls : list call) :
  let self := fold_left do_call calls (new_connection base_url timeout) in
  live (events self) [] = held self /\
  (forall handle, _client self = Some handle -> handle < opened_count (events self)).
Proof.
  cbn zeta.
  assert (Hinv : forall (calls : list call) (self : connection T),
             (live (events self) [] = held self /\
              (forall handle, _client self = Some handle ->
                 handle < opened_count (events self))) ->
             live (events (fold_left do_call calls self)) []
             = held (fold_left do_call calls self) /\
             (forall handle, _client (fold_left do_call calls self) = Some handle ->
                handle < opened_count (events (fold_left do_call calls self)))).
  { clear calls. induction calls as [|c calls IH]; intros self [Hlive Hlt];
      cbn [fold_left]; [auto|].
    apply IH. destruct c; unfold do_call, client_property, close, held in *.
    - destruct (_client self) as [handle|] eqn:Hc; cbn [snd _client events].
      + rewrite Hc. auto.
      + split.
        * rewrite live_app, Hlive. reflexivity.
        * intros handle H. injection H as <-.
          unfold opened_count. rewrite filter_app, length_app. cbn. lia.
    - destruct (_client self) as [handle|] eqn:Hc; cbn [_client events].
      + split.
        * rewrite live_app, Hlive. cbn. now rewrite Nat.eqb_refl.
        * intros h H. discriminate H.
      + rewrite Hc. auto. }
  apply Hinv. cbn. split; [reflexivity|]. intros handle H. discriminate H.
Qed.

(** X25.  Closing twice is closing once, a closed client opens a fresh
    handle when it is used again, and two uses in a row share one handle. *)
Theorem close_and_reuse {T : Type} (self : connection T) :
  close (close self) = close self /\
  _client (close self) = None /\
  (let (handle, self') := client_property self in
   client_property self' = (handle, self') /\ _client self' = Some handle).
Proof.
  unfold close, client_property.
  destruct (_client self) as [handle|] eqn:Hc; cbn [_client];
    repeat split; try reflexivity; try exact Hc; now rewrite Hc.
Qed.

Lemma other_transport_failure_propagates_witness :
  run (mkClient "http://localhost:5000"
         (fun _ _ => httpx.OtherError "ReadTimeout" "timed out"))
    op_get_parameters []
  = ([httpx.GET "/parameters"], Raise (Py "ReadTimeout" "timed out")).
Proof.
  exact (proj1 (other_transport_failure_propagates
                  (mkClient "http://localhost:5000"
                     (fun _ _ => httpx.OtherError "ReadTimeout" "timed out"))
                  op_get_parameters [] [] "ReadTimeout" "timed out") eq_refl).
Defined.
